(** * Weekly commit aggregation and outlier analysis

    A shallow embedding of the aggregation, cohort and outlier functions of
    the analysis scripts ([1_collapse.py], [2_outliers.py],
    [main/3_individual_outliers.py], [main/4_without_outliers.py],
    [main/5_user_week.py], [6_summary.py], [7_only_graphs.py]) together with
    the properties the specification states about them.

    Modelling conventions.
    - A Python [int] is a [Z].  A Python [dict] is an association list in
      insertion order ([dict V]); [d[k] = v] and [d[k] += v] keep the position
      of an existing key and append a new one, as CPython does.
    - A [datetime] at midnight is its proleptic Gregorian day number (what
      [date.toordinal()] returns), a [Z]; [a - b] followed by [.days] is
      subtraction.  [d + timedelta(days=n)] is addition and raises
      [OverflowError] when the result leaves the range of the library type
      (0001-01-01 to 9999-12-31); [strptime] enforces the same range on
      input with [ValueError].
    - Date strings are ASCII.  [strptime] follows the ['%Y-%m-%d'] directives
      of CPython's [_strptime]; every way a string can fail to parse raises
      [ValueError].  [strftime] is the one of the C library that CPython
      calls on Linux: [%m] and [%d] are two digits, [%Y] is the year in
      decimal with no padding, so a year below 1000 prints with fewer
      than four digits.
    - An exception is a value of [pyres]; [except ValueError] catches
      [ValueError] and lets [OverflowError] through.
    - True division [/] and the float constants are exact rationals ([Q]);
      the numpy mean and standard deviation of the consistency score are
      real numbers ([R]).  Rounding of binary floating point is not modelled.
    - [print] calls and plotting have no effect on returned values and are
      left out. *)

From Stdlib Require Import List ZArith QArith Qabs Reals Lia Lra Bool String Ascii Permutation.
Import ListNotations.

Local Open Scope string_scope.
Local Open Scope list_scope.
Local Open Scope Z_scope.

(** ** Python values *)

Inductive exn : Type :=
| ValueError
| OverflowError.

Inductive pyres (A : Type) : Type :=
| Ok (a : A)
| Raise (e : exn).

Arguments Ok {A} a.
Arguments Raise {A} e.

Definition bind {A B : Type} (m : pyres A) (k : A -> pyres B) : pyres B :=
  match m with
  | Ok a => k a
  | Raise e => Raise e
  end.

Notation "x <- m ;; k" := (bind m (fun x => k))
  (at level 61, m at next level, right associativity).

(** A [for] loop over [l] whose body [f] updates the loop state and may
    raise: the first exception ends the loop. *)
Fixpoint for_each {A B : Type} (f : A -> B -> pyres A) (l : list B) (acc : A)
  : pyres A :=
  match l with
  | [] => Ok acc
  | x :: rest => acc' <- f acc x ;; for_each f rest acc'
  end.

(** ** Dictionaries in insertion order *)

Module PyDict.

Definition dict (V : Type) : Type := list (string * V).

Section Ops.
Context {V : Type}.

Fixpoint get (k : string) (d : dict V) : option V :=
  match d with
  | [] => None
  | (k', v) :: rest => if String.eqb k k' then Some v else get k rest
  end.

(** [d.get(k, default)], also the read of a [defaultdict]. *)
Definition get_default (default : V) (k : string) (d : dict V) : V :=
  match get k d with
  | Some v => v
  | None => default
  end.

(** [d[k] = v] *)
Fixpoint set (k : string) (v : V) (d : dict V) : dict V :=
  match d with
  | [] => [(k, v)]
  | (k', v') :: rest =>
      if String.eqb k k' then (k', v) :: rest else (k', v') :: set k v rest
  end.

Definition keys (d : dict V) : list string := map fst d.
Definition values (d : dict V) : list V := map snd d.

(** [not d] *)
Definition is_empty {A : Type} (l : list A) : bool :=
  match l with
  | [] => true
  | _ :: _ => false
  end.

End Ops.

(** [d[k] += n] on a [defaultdict(int)] *)
Definition add (k : string) (n : Z) (d : dict Z) : dict Z :=
  set k (get_default 0 k d + n) d.

Definition mem (k : string) (l : list string) : bool :=
  existsb (String.eqb k) l.

Fixpoint sum (l : list Z) : Z :=
  match l with
  | [] => 0
  | x :: rest => x + sum rest
  end.

End PyDict.

Import PyDict.

(** ** Calendar dates: [strptime], [strftime] and day numbers *)

Module PyDate.

Definition code (c : ascii) : Z := Z.of_N (N_of_ascii c).

Definition in_range (lo hi : ascii) (c : ascii) : bool :=
  (code lo <=? code c) && (code c <=? code hi).

Definition is_digit (c : ascii) : bool := in_range "0" "9" c.

Definition digit_val (c : ascii) : Z := code c - 48.

Definition is_char (x c : ascii) : bool := Ascii.eqb x c.

(** [_is_leap], [_days_before_year], [_days_in_month],
    [_days_before_month], [_ymd2ord] *)

Definition is_leap (year : Z) : bool :=
  (year mod 4 =? 0) && (negb (year mod 100 =? 0) || (year mod 400 =? 0)).

Definition days_before_year (year : Z) : Z :=
  let y := year - 1 in
  y * 365 + y / 4 - y / 100 + y / 400.

Definition DAYS_IN_MONTH (month : Z) : Z :=
  match month with
  | 1 => 31 | 2 => 28 | 3 => 31 | 4 => 30 | 5 => 31 | 6 => 30
  | 7 => 31 | 8 => 31 | 9 => 30 | 10 => 31 | 11 => 30 | 12 => 31
  | _ => 0
  end.

Definition DAYS_BEFORE_MONTH (month : Z) : Z :=
  match month with
  | 1 => 0 | 2 => 31 | 3 => 59 | 4 => 90 | 5 => 120 | 6 => 151
  | 7 => 181 | 8 => 212 | 9 => 243 | 10 => 273 | 11 => 304 | 12 => 334
  | _ => 0
  end.

Definition days_in_month (year month : Z) : Z :=
  if (month =? 2) && is_leap year then 29 else DAYS_IN_MONTH month.

Definition days_before_month (year month : Z) : Z :=
  DAYS_BEFORE_MONTH month + (if (2 <? month) && is_leap year then 1 else 0).

Definition ymd2ord (year month day : Z) : Z :=
  days_before_year year + days_before_month year month + day.

(** [datetime(year, month, day)] as a day number. *)
Definition datetime (year month day : Z) : Z := ymd2ord year month day.

(** [_ord2ymd] *)
Definition ord2ymd (n : Z) : Z * Z * Z :=
  let n := n - 1 in
  let n400 := n / 146097 in
  let n := n mod 146097 in
  let year := n400 * 400 + 1 in
  let n100 := n / 36524 in
  let n := n mod 36524 in
  let n4 := n / 1461 in
  let n := n mod 1461 in
  let n1 := n / 365 in
  let n := n mod 365 in
  let year := year + n100 * 100 + n4 * 4 + n1 in
  if (n1 =? 4) || (n100 =? 4) then (year - 1, 12, 31)
  else
    let leapyear := (n1 =? 3) && (negb (n4 =? 24) || (n100 =? 3)) in
    let month := Z.shiftr (n + 50) 5 in
    let preceding :=
      DAYS_BEFORE_MONTH month + (if (2 <? month) && leapyear then 1 else 0) in
    if n <? preceding then
      let month := month - 1 in
      let preceding :=
        preceding
        - (DAYS_IN_MONTH month + (if (month =? 2) && leapyear then 1 else 0)) in
      (year, month, n - preceding + 1)
    else (year, month, n - preceding + 1).

(** The three fields of ['%Y-%m-%d'] as the regular expressions of
    [_strptime] match them: [\d\d\d\d], [1[0-2]|0[1-9]|[1-9]] and
    [3[0-1]|[1-2]\d|0[1-9]|[1-9]| [1-9]]. *)

Definition parse_year (s : string) : option (Z * string) :=
  match s with
  | String a (String b (String c (String d rest))) =>
      if is_digit a && is_digit b && is_digit c && is_digit d
      then Some (1000 * digit_val a + 100 * digit_val b
                 + 10 * digit_val c + digit_val d, rest)
      else None
  | _ => None
  end.

Definition expect_dash (s : string) : option string :=
  match s with
  | String c rest => if is_char "-" c then Some rest else None
  | EmptyString => None
  end.

Definition month2 (a b : ascii) : bool :=
  (is_char "1" a && in_range "0" "2" b) || (is_char "0" a && in_range "1" "9" b).

Definition parse_month (s : string) : option (Z * string) :=
  match s with
  | String a (String b rest) =>
      if month2 a b then Some (10 * digit_val a + digit_val b, rest)
      else if in_range "1" "9" a then Some (digit_val a, String b rest)
      else None
  | String a EmptyString =>
      if in_range "1" "9" a then Some (digit_val a, EmptyString) else None
  | EmptyString => None
  end.

Definition day2 (a b : ascii) : bool :=
  (is_char "3" a && in_range "0" "1" b)
  || (in_range "1" "2" a && is_digit b)
  || (is_char "0" a && in_range "1" "9" b).

Definition day_blank (a b : ascii) : bool :=
  is_char " " a && in_range "1" "9" b.

Definition parse_day (s : string) : option (Z * string) :=
  match s with
  | String a (String b rest) =>
      if day2 a b then Some (10 * digit_val a + digit_val b, rest)
      else if in_range "1" "9" a then Some (digit_val a, String b rest)
      else if day_blank a b then Some (digit_val b, rest)
      else None
  | String a EmptyString =>
      if in_range "1" "9" a then Some (digit_val a, EmptyString) else None
  | EmptyString => None
  end.

(** [datetime.strptime(date_str, '%Y-%m-%d')]: [None] stands for
    [ValueError] (no match, unconverted data, year 0, or a day that the
    month does not have). *)
Definition strptime (date_str : string) : option Z :=
  match parse_year date_str with
  | None => None
  | Some (year, s1) =>
  match expect_dash s1 with
  | None => None
  | Some s2 =>
  match parse_month s2 with
  | None => None
  | Some (month, s3) =>
  match expect_dash s3 with
  | None => None
  | Some s4 =>
  match parse_day s4 with
  | None => None
  | Some (day, s5) =>
      match s5 with
      | EmptyString =>
          if (1 <=? year) && (1 <=? day) && (day <=? days_in_month year month)
          then Some (ymd2ord year month day)
          else None
      | String _ _ => None
      end
  end end end end end.

Definition digit_char (d : Z) : ascii :=
  ascii_of_N (Z.to_N (48 + d mod 10)).

Definition pad2 (n : Z) (rest : string) : string :=
  String (digit_char (n / 10)) (String (digit_char n) rest).

Definition pad4 (n : Z) (rest : string) : string :=
  String (digit_char (n / 1000)) (String (digit_char (n / 100)) (pad2 n rest)).

(** [%Y]: the year (1 to 9999) in decimal, without leading zeros. *)
Definition year_digits (year : Z) (rest : string) : string :=
  if year <? 10 then String (digit_char year) rest
  else if year <? 100 then pad2 year rest
  else if year <? 1000 then String (digit_char (year / 100)) (pad2 year rest)
  else pad4 year rest.

(** [d.strftime('%Y-%m-%d')] *)
Definition strftime (d : Z) : string :=
  let '(year, month, day) := ord2ymd d in
  year_digits year (String "-" (pad2 month (String "-" (pad2 day EmptyString)))).

(** [MINYEAR]-01-01 and [MAXYEAR]-12-31 as day numbers. *)
Definition MIN_ORDINAL : Z := 1.
Definition MAX_ORDINAL : Z := 3652059.

(** [d + timedelta(days=days)]: [OverflowError] (date value out of range)
    when the sum is not a day of the calendar.  The limit of [timedelta]
    itself, 999999999 days, is beyond any difference of two dates. *)
Definition add_days (d days : Z) : pyres Z :=
  let result := d + days in
  if (MIN_ORDINAL <=? result) && (result <=? MAX_ORDINAL)
  then Ok result
  else Raise OverflowError.

End PyDate.

Import PyDate.

(** ** The week bucket of a day

    The arithmetic shared by every copy of [get_week_start_date]:
<<
    days_diff = (date - reference_date).days
    week_number = days_diff // 7
    week_start = reference_date + timedelta(days=week_number * 7)
>>
    Python's [//] rounds towards minus infinity, as [Z.div] does for a
    positive divisor. *)

Definition week_number (reference_date date : Z) : Z :=
  let days_diff := date - reference_date in
  days_diff / 7.

Definition week_start (reference_date date : Z) : pyres Z :=
  add_days reference_date (week_number reference_date date * 7).

Arguments strptime : simpl never.
Arguments strftime : simpl never.
Arguments ord2ymd : simpl never.
Arguments ymd2ord : simpl never.
Arguments datetime : simpl never.
Arguments add_days : simpl never.
Arguments week_start : simpl never.

(** The input: [commits_data] maps a user name to a record that may hold
    [daily_commits] (date string to count) and [total_commits]. *)

Record user_data : Type := mk_user_data {
  ud_daily_commits : option (dict Z);
  ud_total_commits : option Z
}.

(** [user_data.get('daily_commits', {})] *)
Definition daily_commits_of (ud : user_data) : dict Z :=
  match ud_daily_commits ud with
  | Some d => d
  | None => []
  end.

Definition with_daily (d : dict Z) : user_data := mk_user_data (Some d) None.

(** ** [1_collapse.py] *)

Module Collapse.

Definition reference_date : Z := datetime 2024 7 17.

(** [get_week_start_date]: no handler, so the [ValueError] of [strptime]
    and the [OverflowError] of the addition both reach the caller. *)
Definition get_week_start_date (date_str : string) : pyres string :=
  match strptime date_str with
  | None => Raise ValueError
  | Some date =>
      start <- week_start reference_date date ;;
      Ok (strftime start)
  end.

Fixpoint collapse_daily (daily_commits : dict Z) (weekly_commits : dict Z)
  : pyres (dict Z) :=
  match daily_commits with
  | [] => Ok weekly_commits
  | (date_str, commit_count) :: rest =>
      if 0 <? commit_count then
        week_start <- get_week_start_date date_str ;;
        collapse_daily rest (add week_start commit_count weekly_commits)
      else collapse_daily rest weekly_commits
  end.

Fixpoint collapse_users (commits_data : dict user_data) (weekly_commits : dict Z)
  : pyres (dict Z) :=
  match commits_data with
  | [] => Ok weekly_commits
  | (username, ud) :: rest =>
      weekly_commits' <- collapse_daily (daily_commits_of ud) weekly_commits ;;
      collapse_users rest weekly_commits'
  end.

Definition collapse_to_weekly (commits_data : dict user_data) : pyres (dict Z) :=
  collapse_users commits_data [].

End Collapse.

(** ** [2_outliers.py] *)

Module Outliers.

Record analysis : Type := mk_analysis {
  average : Q;
  threshold_50_above : Q;
  threshold_50_below : Q;
  threshold_100_above : Q;
  normal : list (string * Z);
  high_50 : list (string * Z);
  low_50 : list (string * Z);
  high_100 : list (string * Z)
}.

Record categories : Type := mk_categories {
  normal_weeks : list (string * Z);
  high_50_weeks : list (string * Z);
  low_50_weeks : list (string * Z);
  high_100_weeks : list (string * Z)
}.

Definition categorize (t50a t50b t100a : Q) (acc : categories)
  (item : string * Z) : categories :=
  let '(week, commits) := item in
  if Qle_bool t100a (inject_Z commits) then
    mk_categories (normal_weeks acc) (high_50_weeks acc) (low_50_weeks acc)
                  (high_100_weeks acc ++ [(week, commits)])
  else if Qle_bool t50a (inject_Z commits) then
    mk_categories (normal_weeks acc) (high_50_weeks acc ++ [(week, commits)])
                  (low_50_weeks acc) (high_100_weeks acc)
  else if Qle_bool (inject_Z commits) t50b then
    mk_categories (normal_weeks acc) (high_50_weeks acc)
                  (low_50_weeks acc ++ [(week, commits)]) (high_100_weeks acc)
  else
    mk_categories (normal_weeks acc ++ [(week, commits)]) (high_50_weeks acc)
                  (low_50_weeks acc) (high_100_weeks acc).

Definition analyze_outliers (weekly_data : dict Z) : pyres analysis :=
  if is_empty weekly_data then Raise ValueError
  else
    let commits_list := values weekly_data in
    if (List.length commits_list =? 0)%nat then Raise ValueError
    else
      let average_commits :=
        (inject_Z (sum commits_list) / inject_Z (Z.of_nat (List.length commits_list)))%Q in
      let threshold_50_above := (average_commits * (3 # 2))%Q in
      let threshold_50_below := (average_commits * (1 # 2))%Q in
      let threshold_100_above := (average_commits * 2)%Q in
      let cats :=
        fold_left (categorize threshold_50_above threshold_50_below threshold_100_above)
                  weekly_data (mk_categories [] [] [] []) in
      Ok (mk_analysis average_commits
            threshold_50_above threshold_50_below threshold_100_above
            (normal_weeks cats) (high_50_weeks cats)
            (low_50_weeks cats) (high_100_weeks cats)).

(** The weeks an analysis puts outside the normal band. *)
Definition flagged (a : analysis) : list (string * Z) :=
  high_100 a ++ high_50 a ++ low_50 a.

End Outliers.

(** ** [main/3_individual_outliers.py] *)

Module IndividualOutliers.

Definition may_start : Z := datetime 2024 5 1.
Definition aug_end : Z := datetime 2024 9 3.

Definition filter_step (filtered_commits : dict Z) (item : string * Z) : dict Z :=
  let '(date_str, commit_count) := item in
  match strptime date_str with
  | Some date =>
      if (may_start <=? date) && (date <=? aug_end)
      then set date_str commit_count filtered_commits
      else filtered_commits
  | None => filtered_commits
  end.

Definition filter_may_august_commits (daily_commits : dict Z) : dict Z :=
  fold_left filter_step daily_commits [].

Definition calculate_total_commits_may_aug (daily_commits : dict Z) : Z :=
  sum (values (filter_may_august_commits daily_commits)).

Record classification : Type := mk_classification {
  inactive : list string;
  casual : list string;
  power_users : list string;
  regular : list string
}.

Definition classify_step (acc : classification) (item : string * user_data)
  : classification :=
  let '(username, ud) := item in
  let daily_commits := daily_commits_of ud in
  let total_commits := calculate_total_commits_may_aug daily_commits in
  let avg_commits_per_month := (inject_Z total_commits / 4)%Q in
  if total_commits =? 0 then
    mk_classification (inactive acc ++ [username]) (casual acc)
                      (power_users acc) (regular acc)
  else if Qle_bool avg_commits_per_month 3 then
    mk_classification (inactive acc) (casual acc ++ [username])
                      (power_users acc) (regular acc)
  else if Qle_bool 200 avg_commits_per_month then
    mk_classification (inactive acc) (casual acc)
                      (power_users acc ++ [username]) (regular acc)
  else
    mk_classification (inactive acc) (casual acc)
                      (power_users acc) (regular acc ++ [username]).

Definition classify_users_by_activity (commits_data : dict user_data)
  : classification :=
  fold_left classify_step commits_data (mk_classification [] [] [] []).

(** [np.mean] and [np.std] (population standard deviation) of a list of
    integers. *)

Definition np_mean (l : list Z) : R :=
  (IZR (sum l) / INR (List.length l))%R.

Fixpoint sum_sq_dev (m : R) (l : list Z) : R :=
  match l with
  | [] => 0%R
  | x :: rest => ((IZR x - m) * (IZR x - m) + sum_sq_dev m rest)%R
  end.

Definition np_std (l : list Z) : R :=
  sqrt (sum_sq_dev (np_mean l) l / INR (List.length l)).

(** [[c for c in commits_list if c > 0]] over the filtered window. *)
Definition active_days (daily_commits : dict Z) : list Z :=
  filter (fun c => 0 <? c) (values (filter_may_august_commits daily_commits)).

Definition calculate_consistency_score (daily_commits : dict Z) : R :=
  let filtered_commits := filter_may_august_commits daily_commits in
  if is_empty filtered_commits then 0%R
  else
    let commits_list := values filtered_commits in
    if is_empty commits_list || (sum commits_list =? 0) then 0%R
    else
      let active_days := filter (fun c => 0 <? c) commits_list in
      if (List.length active_days <? 2)%nat then 0%R
      else
        let mean_commits := np_mean active_days in
        if Req_dec_T mean_commits 0 then 0%R
        else
          let std_commits := np_std active_days in
          let cv := (std_commits / mean_commits)%R in
          (1 / (1 + cv))%R.

(** The [stats] dictionary of [calculate_distribution_stats], as
    [find_outliers_by_method] receives it. *)
Record stats : Type := mk_stats {
  mean : Q;
  std : Q;
  P25 : Q; P50 : Q; P75 : Q; P90 : Q; P95 : Q; P99 : Q;
  sigma_1 : Q * Q; sigma_2 : Q * Q; sigma_3 : Q * Q;
  lower_bound : Q;
  upper_bound : Q
}.

Record outliers : Type := mk_outliers {
  iqr_outliers : list (string * Z);
  above_2_sigma : list (string * Z);
  above_3_sigma : list (string * Z);
  top_1_percent : list (string * Z);
  bottom_1_percent : list (string * Z)
}.

Definition Qlt_bool (a b : Q) : bool := negb (Qle_bool b a).

Definition append_if {A : Type} (b : bool) (l : list A) (x : A) : list A :=
  if b then l ++ [x] else l.

Definition outlier_step (st : stats) (acc : outliers) (item : string * Z)
  : outliers :=
  let '(username, value) := item in
  let v := inject_Z value in
  mk_outliers
    (append_if (Qlt_bool v (lower_bound st) || Qlt_bool (upper_bound st) v)
       (iqr_outliers acc) (username, value))
    (append_if (Qlt_bool (2 * std st) (Qabs (v - mean st)))
       (above_2_sigma acc) (username, value))
    (append_if (Qlt_bool (3 * std st) (Qabs (v - mean st)))
       (above_3_sigma acc) (username, value))
    (append_if (Qle_bool (P99 st) v)
       (top_1_percent acc) (username, value))
    (append_if (Qle_bool v (P25 st * (1 # 4)))
       (bottom_1_percent acc) (username, value)).

Definition find_outliers_by_method (values : list Z) (usernames : list string)
  (st : stats) : outliers :=
  let outliers := mk_outliers [] [] [] [] [] in
  if is_empty values || is_empty usernames || Qeq_bool (mean st) 0 then outliers
  else fold_left (outlier_step st) (combine usernames values) outliers.

(** ['mean': np.mean(values_array)] of [calculate_distribution_stats],
    with the value 0 that an empty list gets. *)
Definition stats_mean (values : list Z) : Q :=
  if is_empty values then 0
  else (inject_Z (sum values) / inject_Z (Z.of_nat (List.length values)))%Q.

End IndividualOutliers.

(** ** [main/4_without_outliers.py] *)

Module WithoutOutliers.

Definition outlier_step (threshold : Q) (acc : dict Z * list (string * Z))
  (item : string * Z) : dict Z * list (string * Z) :=
  let '(week, commits) := item in
  let '(filtered_data, removed_weeks) := acc in
  if Qle_bool (inject_Z commits) threshold
  then (set week commits filtered_data, removed_weeks)
  else (filtered_data, removed_weeks ++ [(week, commits)]).

Definition remove_weekly_outliers (weekly_data : dict Z) (threshold_percentage : Q)
  : dict Z * list (string * Z) :=
  if is_empty weekly_data then ([], [])
  else
    let commits_list := values weekly_data in
    if (List.length commits_list =? 0)%nat then ([], [])
    else
      let average_commits :=
        (inject_Z (sum commits_list) / inject_Z (Z.of_nat (List.length commits_list)))%Q in
      let threshold := (average_commits * (1 + threshold_percentage / 100))%Q in
      fold_left (outlier_step threshold) weekly_data ([], []).

End WithoutOutliers.

(** ** [main/5_user_week.py] *)

Module UserWeek.

Definition reference_date : Z := datetime 2024 7 17.

(** [get_week_start_date] with its [except ValueError: return None]: a
    date that does not parse gives [None]; the [OverflowError] of the
    addition is not caught. *)
Definition get_week_start_date (date_str : string) : pyres (option string) :=
  match strptime date_str with
  | None => Ok None
  | Some date =>
      start <- week_start reference_date date ;;
      Ok (Some (strftime start))
  end.

(** Truth value of [week_start] in [if week_start:]. *)
Definition truthy (week_start : option string) : bool :=
  match week_start with
  | Some s => negb (String.eqb s "")
  | None => false
  end.

Definition may_start : Z := datetime 2024 5 1.
Definition aug_end : Z := datetime 2024 9 4.

(** [all_weeks.add(week)] on a set kept as a duplicate-free list. *)
Definition set_add (week : string) (all_weeks : list string) : list string :=
  if mem week all_weeks then all_weeks else all_weeks ++ [week].

Fixpoint insert_sorted (x : string) (l : list string) : list string :=
  match l with
  | [] => [x]
  | y :: rest => if String.leb x y then x :: l else y :: insert_sorted x rest
  end.

(** [sorted(l)] on strings. *)
Definition sorted (l : list string) : list string :=
  fold_right insert_sorted [] l.

Definition filter_complete_weeks (all_weeks : list string) : list string :=
  if is_empty all_weeks then all_weeks
  else
    let filtered_weeks :=
      filter (fun week =>
                match strptime week with
                | Some week_date => (may_start <=? week_date) && (week_date <=? aug_end)
                | None => false
                end) all_weeks in
    sorted filtered_weeks.

(** [user_week_data[user][week]] on the nested [defaultdict]. *)
Definition cell (user_week_data : dict (dict Z)) (user week : string) : Z :=
  get_default 0 week (get_default [] user user_week_data).

(** [user_week_data[user][week] = v] *)
Definition cell_set (user week : string) (v : Z) (data : dict (dict Z))
  : dict (dict Z) :=
  set user (set week v (get_default [] user data)) data.

Definition matrix_day (username : string)
  (acc : dict (dict Z) * list string) (item : string * Z)
  : pyres (dict (dict Z) * list string) :=
  let '(date_str, commit_count) := item in
  let '(user_week_data, all_weeks) := acc in
  if 0 <? commit_count then
    week_start <- get_week_start_date date_str ;;
    match week_start with
    | Some week =>
        if truthy week_start then
          Ok (cell_set username week
                (cell user_week_data username week + commit_count) user_week_data,
              set_add week all_weeks)
        else Ok acc
    | None => Ok acc
    end
  else Ok acc.

Definition matrix_user (acc : dict (dict Z) * list string)
  (item : string * user_data) : pyres (dict (dict Z) * list string) :=
  let '(username, ud) := item in
  for_each (matrix_day username) (daily_commits_of ud) acc.

Definition create_user_week_matrix (commits_data : dict user_data)
  : pyres (dict (dict Z) * list string) :=
  filled <- for_each matrix_user commits_data ([], []) ;;
  let '(user_week_data, all_weeks) := filled in
  Ok (user_week_data, filter_complete_weeks all_weeks).

(** [[data[user][week] for user in user_week_data.keys()]] *)
Definition week_column (data users : dict (dict Z)) (week : string) : list Z :=
  map (fun user => cell data user week) (keys users).

Definition average_of (week_commits : list Z) (total_users : nat) : Q :=
  if (0 <? total_users)%nat
  then (inject_Z (sum week_commits) / inject_Z (Z.of_nat total_users))%Q
  else 0%Q.

Definition calculate_weekly_averages (user_week_data : dict (dict Z))
  (sorted_weeks : list string) : dict Q :=
  if is_empty user_week_data || is_empty sorted_weeks then []
  else
    let total_users := List.length user_week_data in
    fold_left
      (fun weekly_averages week =>
         let week_commits := week_column user_week_data user_week_data week in
         let avg_commits := average_of week_commits total_users in
         set week avg_commits weekly_averages)
      sorted_weeks [].

Record removed_outlier : Type := mk_removed_outlier {
  ro_user : string;
  ro_week : string;
  ro_commits : Z;
  ro_week_average : Q;
  ro_threshold : Q
}.

Definition outlier_user (user_week_data : dict (dict Z)) (week : string)
  (week_average threshold : Q)
  (acc : dict (dict Z) * list removed_outlier) (user : string)
  : dict (dict Z) * list removed_outlier :=
  let '(cleaned_data, removed_outliers) := acc in
  let commits := cell user_week_data user week in
  if Qle_bool (inject_Z commits) threshold
  then (cell_set user week commits cleaned_data, removed_outliers)
  else (cleaned_data,
        removed_outliers
        ++ [mk_removed_outlier user week commits week_average threshold]).

Definition outlier_week (user_week_data : dict (dict Z)) (threshold_percentage : Q)
  (acc : dict (dict Z) * list removed_outlier) (week : string)
  : dict (dict Z) * list removed_outlier :=
  let total_users := List.length user_week_data in
  let week_commits := week_column user_week_data user_week_data week in
  let week_average := average_of week_commits total_users in
  let threshold := (week_average * (1 + threshold_percentage / 100))%Q in
  fold_left (outlier_user user_week_data week week_average threshold)
            (keys user_week_data) acc.

Definition remove_user_week_outliers (user_week_data : dict (dict Z))
  (sorted_weeks : list string) (threshold_percentage : Q)
  : dict Q * list removed_outlier :=
  if is_empty user_week_data || is_empty sorted_weeks then ([], [])
  else
    let total_users := List.length user_week_data in
    let '(cleaned_data, removed_outliers) :=
      fold_left (outlier_week user_week_data threshold_percentage)
                sorted_weeks ([], []) in
    let cleaned_averages :=
      fold_left
        (fun cleaned_averages week =>
           let week_commits := week_column cleaned_data user_week_data week in
           set week (average_of week_commits total_users) cleaned_averages)
        sorted_weeks [] in
    (cleaned_averages, removed_outliers).

End UserWeek.

(** ** [6_summary.py] (the same [filter_consistent_users] is in
    [7_only_graphs.py]) *)

Module Summary.

Definition reference_date : Z := datetime 2024 5 1.

(** [get_week_start_date]: [except ValueError: return None] catches the
    error of [strptime]; the [OverflowError] of the addition is not
    caught. *)
Definition get_week_start_date (date_str : string) : pyres (option string) :=
  match strptime date_str with
  | None => Ok None
  | Some date =>
      start <- week_start reference_date date ;;
      Ok (Some (strftime start))
  end.

(** Truth value of a string in [if week_start and ...]. *)
Definition truthy (week_start : string) : bool := negb (String.eqb week_start "").

(** The aggregation loop of [filter_consistent_users]. *)
Definition pre_day (pre_treatment_weeks : list string)
  (user_weekly_commits : dict Z) (item : string * Z) : pyres (dict Z) :=
  let '(date_str, commit_count) := item in
  if 0 <? commit_count then
    week_start <- get_week_start_date date_str ;;
    match week_start with
    | Some week_start =>
        if truthy week_start && mem week_start pre_treatment_weeks
        then Ok (add week_start commit_count user_weekly_commits)
        else Ok user_weekly_commits
    | None => Ok user_weekly_commits
    end
  else Ok user_weekly_commits.

Definition is_consistent (pre_treatment_weeks : list string) (ud : user_data)
  : pyres bool :=
  user_weekly_commits <-
    for_each (pre_day pre_treatment_weeks) (daily_commits_of ud) [] ;;
  Ok ((List.length user_weekly_commits =? List.length pre_treatment_weeks)%nat
      && forallb (fun v => 0 <? v) (values user_weekly_commits)).

Definition filter_consistent_users (commits_data : dict user_data)
  (pre_treatment_weeks : list string) : pyres (list string) :=
  for_each
    (fun consistent_users item =>
       let '(username, ud) := item in
       consistent <- is_consistent pre_treatment_weeks ud ;;
       Ok (if consistent
           then consistent_users ++ [username]
           else consistent_users))
    commits_data [].

(** The per-user weekly totals that [create_user_week_matrix] builds
    (every week, not only the pre-treatment ones). *)
Definition week_day (user_weekly_commits : dict Z) (item : string * Z)
  : pyres (dict Z) :=
  let '(date_str, commit_count) := item in
  if 0 <? commit_count then
    week_start <- get_week_start_date date_str ;;
    match week_start with
    | Some week_start =>
        if truthy week_start
        then Ok (add week_start commit_count user_weekly_commits)
        else Ok user_weekly_commits
    | None => Ok user_weekly_commits
    end
  else Ok user_weekly_commits.

Definition user_weekly_commits (ud : user_data) : pyres (dict Z) :=
  for_each week_day (daily_commits_of ud) [].

End Summary.

(** ** Quantities the properties are stated with *)

Module Conservation.

(** Sum of the weekly totals over the week buckets of a window. *)
Definition weekly_total (window : list string) (weekly : dict Z) : Z :=
  sum (map (fun week => get_default 0 week weekly) window).

(** What one daily entry adds to a window: its count when the count is
    positive and the day's week bucket belongs to the window. *)
Definition day_in_window (window : list string) (item : string * Z) : Z :=
  let '(date_str, commit_count) := item in
  if 0 <? commit_count then
    match Collapse.get_week_start_date date_str with
    | Ok week => if mem week window then commit_count else 0
    | Raise _ => 0
    end
  else 0.

Definition user_in_window (window : list string) (item : string * user_data) : Z :=
  sum (map (day_in_window window) (daily_commits_of (snd item))).

Definition daily_total (window : list string) (commits_data : dict user_data) : Z :=
  sum (map (user_in_window window) commits_data).

(** No day with a positive count is dated before 0001-01-03, the first
    bucket start of the calendar. *)
Definition dates_in_calendar (commits_data : dict user_data) : Prop :=
  forall username ud date_str commit_count date,
    In (username, ud) commits_data ->
    In (date_str, commit_count) (daily_commits_of ud) ->
    0 < commit_count ->
    strptime date_str = Some date ->
    datetime 1 1 3 <= date.

(** Every day with a positive count has a date that parses, from
    0001-01-03 on. *)
Definition dates_parse (commits_data : dict user_data) : Prop :=
  forall username ud date_str commit_count,
    In (username, ud) commits_data ->
    In (date_str, commit_count) (daily_commits_of ud) ->
    0 < commit_count ->
    exists date, strptime date_str = Some date /\ datetime 1 1 3 <= date.

End Conservation.

(** * Properties *)

(** ** Dictionaries *)

Section DictFacts.
Context {V : Type}.

Lemma get_set_same (k : string) (v : V) (d : dict V) :
  get k (set k v d) = Some v.
Proof.
  induction d as [|[k' v'] d IH]; simpl.
  - now rewrite String.eqb_refl.
  - destruct (String.eqb k k') eqn:E; simpl; rewrite E; auto.
Qed.

Lemma get_set_other (k k' : string) (v : V) (d : dict V) :
  k <> k' -> get k' (set k v d) = get k' d.
Proof.
  intros Hne. induction d as [|[k0 v0] d IH]; simpl.
  - destruct (String.eqb k' k) eqn:E; auto.
    apply String.eqb_eq in E. congruence.
  - destruct (String.eqb k k0) eqn:E; simpl.
    + apply String.eqb_eq in E. subst k0.
      destruct (String.eqb k' k) eqn:E'; auto.
      apply String.eqb_eq in E'. congruence.
    + now rewrite IH.
Qed.

Lemma get_In_keys (k : string) (d : dict V) :
  In k (keys d) <-> get k d <> None.
Proof.
  induction d as [|[k' v'] d IH]; simpl.
  - split; [tauto | congruence].
  - destruct (String.eqb k k') eqn:E.
    + apply String.eqb_eq in E. split; [congruence | auto].
    + apply String.eqb_neq in E. rewrite <- IH. split.
      * intros [H|H]; [congruence | exact H].
      * auto.
Qed.

Lemma keys_set_In (k : string) (v : V) (d : dict V) :
  In k (keys d) -> keys (set k v d) = keys d.
Proof.
  induction d as [|[k' v'] d IH]; simpl; [tauto|].
  intros H. destruct (String.eqb k k') eqn:E; simpl; auto.
  apply String.eqb_neq in E. f_equal. apply IH.
  destruct H; [congruence | assumption].
Qed.

Lemma keys_set_notin (k : string) (v : V) (d : dict V) :
  ~ In k (keys d) -> keys (set k v d) = keys d ++ [k].
Proof.
  induction d as [|[k' v'] d IH]; simpl; auto.
  intros H. destruct (String.eqb k k') eqn:E; simpl.
  - apply String.eqb_eq in E. subst k'. tauto.
  - f_equal. apply IH. tauto.
Qed.

Lemma keys_set_incl (k : string) (v : V) (d : dict V) (x : string) :
  In x (keys (set k v d)) <-> x = k \/ In x (keys d).
Proof.
  destruct (in_dec string_dec k (keys d)) as [Hin|Hnot].
  - rewrite keys_set_In by assumption. split; [now right|].
    intros [->|H]; assumption.
  - rewrite keys_set_notin by assumption. rewrite in_app_iff. simpl.
    split; intros H; intuition.
Qed.

Lemma NoDup_keys_set (k : string) (v : V) (d : dict V) :
  NoDup (keys d) -> NoDup (keys (set k v d)).
Proof.
  intros Hnd. destruct (in_dec string_dec k (keys d)) as [Hin|Hnot].
  - now rewrite keys_set_In.
  - rewrite keys_set_notin by assumption.
    apply NoDup_app; auto.
    + constructor; [simpl; tauto | constructor].
    + intros x Hx [Hk|[]]. subst. tauto.
Qed.

Lemma get_default_set (dflt : V) (k k' : string) (v : V) (d : dict V) :
  get_default dflt k' (set k v d)
  = if String.eqb k k' then v else get_default dflt k' d.
Proof.
  unfold get_default. destruct (String.eqb k k') eqn:E.
  - apply String.eqb_eq in E. subst. now rewrite get_set_same.
  - apply String.eqb_neq in E. now rewrite get_set_other.
Qed.

End DictFacts.

Lemma get_default_add (k k' : string) (n : Z) (d : dict Z) :
  get_default 0 k' (add k n d)
  = get_default 0 k' d + (if String.eqb k k' then n else 0).
Proof.
  unfold add. rewrite get_default_set.
  destruct (String.eqb k k') eqn:E; [|lia].
  apply String.eqb_eq in E. now subst.
Qed.

Lemma mem_In (k : string) (l : list string) : mem k l = true <-> In k l.
Proof.
  unfold mem. rewrite existsb_exists. split.
  - intros [x [Hx E]]. apply String.eqb_eq in E. now subst.
  - intros H. exists k. split; [assumption | apply String.eqb_refl].
Qed.

Lemma mem_false (k : string) (l : list string) : mem k l = false <-> ~ In k l.
Proof.
  rewrite <- mem_In. destruct (mem k l); split; congruence.
Qed.

Lemma sum_app (l1 l2 : list Z) : sum (l1 ++ l2) = sum l1 + sum l2.
Proof. induction l1; simpl; lia. Qed.

(** ** Loops that may raise *)

Lemma for_each_cons {A B : Type} (f : A -> B -> pyres A) (x : B) (rest : list B)
  (acc r : A) :
  for_each f (x :: rest) acc = Ok r ->
  exists acc', f acc x = Ok acc' /\ for_each f rest acc' = Ok r.
Proof.
  cbn [for_each]. destruct (f acc x) as [acc'|e]; cbn [bind]; [eauto|discriminate].
Qed.

Lemma for_each_app {A B : Type} (f : A -> B -> pyres A) (l1 l2 : list B) (acc : A) :
  for_each f (l1 ++ l2) acc = (acc' <- for_each f l1 acc ;; for_each f l2 acc').
Proof.
  revert acc. induction l1 as [|x l1 IH]; intros acc; cbn [for_each app bind];
    [reflexivity|].
  destruct (f acc x); cbn [bind]; [apply IH | reflexivity].
Qed.

(** ** Calendar dates *)

(** The days [a], [a + 1], ..., [a + n - 1]. *)
Definition days_from (a : Z) (n : nat) : list Z :=
  map (fun i => a + Z.of_nat i) (seq 0 n).

Lemma forallb_range (P : Z -> bool) (a b : Z) :
  forallb P (days_from a (Z.to_nat (b - a + 1))) = true ->
  forall x, a <= x <= b -> P x = true.
Proof.
  intros H x Hx. rewrite forallb_forall in H. apply H.
  unfold days_from. apply in_map_iff. exists (Z.to_nat (x - a)).
  split; [lia|]. apply in_seq. lia.
Qed.

Lemma digit_char_digit (x : Z) :
  is_digit (digit_char x) = true /\ digit_val (digit_char x) = x mod 10.
Proof.
  pose proof (Z.mod_pos_bound x 10 ltac:(lia)) as Hr.
  unfold digit_char. generalize dependent (x mod 10). intros r Hr.
  pose proof (forallb_range
                (fun r => is_digit (ascii_of_N (Z.to_N (48 + r)))
                          && (digit_val (ascii_of_N (Z.to_N (48 + r))) =? r))
                0 9 eq_refl r ltac:(lia)) as H.
  apply andb_prop in H. destruct H as [H1 H2]. apply Z.eqb_eq in H2. auto.
Qed.

Lemma parse_year_pad4 (y : Z) (rest : string) :
  0 <= y <= 9999 -> parse_year (pad4 y rest) = Some (y, rest).
Proof.
  intros Hy. unfold pad4, pad2, parse_year.
  destruct (digit_char_digit (y / 1000)) as [D1 V1].
  destruct (digit_char_digit (y / 100)) as [D2 V2].
  destruct (digit_char_digit (y / 10)) as [D3 V3].
  destruct (digit_char_digit y) as [D4 V4].
  rewrite D1, D2, D3, D4, V1, V2, V3, V4. simpl andb. cbv iota.
  f_equal. f_equal. Z.to_euclidean_division_equations. lia.
Qed.

Lemma parse_month_pad2 (m : Z) (rest : string) :
  1 <= m <= 12 ->
  parse_month (pad2 m (String "-" rest)) = Some (m, String "-" rest).
Proof.
  intros Hm. unfold pad2, parse_month.
  pose proof (forallb_range
                (fun m => month2 (digit_char (m / 10)) (digit_char m)
                          && (10 * digit_val (digit_char (m / 10))
                              + digit_val (digit_char m) =? m))
                1 12 eq_refl m Hm) as H.
  apply andb_prop in H. destruct H as [H1 H2]. apply Z.eqb_eq in H2.
  now rewrite H1, H2.
Qed.

Lemma parse_day_pad2 (d : Z) :
  1 <= d <= 31 -> parse_day (pad2 d EmptyString) = Some (d, EmptyString).
Proof.
  intros Hd. unfold pad2, parse_day.
  pose proof (forallb_range
                (fun d => day2 (digit_char (d / 10)) (digit_char d)
                          && (10 * digit_val (digit_char (d / 10))
                              + digit_val (digit_char d) =? d))
                1 31 eq_refl d Hd) as H.
  apply andb_prop in H. destruct H as [H1 H2]. apply Z.eqb_eq in H2.
  now rewrite H1, H2.
Qed.

(** The month and day that [_ord2ymd] derives from the day of the year. *)
Definition md_of (leapyear : bool) (n : Z) : Z * Z :=
  let month := Z.shiftr (n + 50) 5 in
  let preceding :=
    DAYS_BEFORE_MONTH month + (if (2 <? month) && leapyear then 1 else 0) in
  if n <? preceding then
    let month := month - 1 in
    let preceding :=
      preceding
      - (DAYS_IN_MONTH month + (if (month =? 2) && leapyear then 1 else 0)) in
    (month, n - preceding + 1)
  else (month, n - preceding + 1).

Definition md_ok (leapyear : bool) (n : Z) : bool :=
  let '(m, d) := md_of leapyear n in
  (1 <=? m) && (m <=? 12) && (1 <=? d)
  && (d <=? DAYS_IN_MONTH m + (if (m =? 2) && leapyear then 1 else 0))
  && (DAYS_BEFORE_MONTH m + (if (2 <? m) && leapyear then 1 else 0) + d =? n + 1).

Lemma md_of_spec (leapyear : bool) (n : Z) :
  0 <= n <= 364 + (if leapyear then 1 else 0) ->
  let '(m, d) := md_of leapyear n in
  1 <= m <= 12
  /\ 1 <= d <= DAYS_IN_MONTH m + (if (m =? 2) && leapyear then 1 else 0)
  /\ DAYS_BEFORE_MONTH m + (if (2 <? m) && leapyear then 1 else 0) + d = n + 1.
Proof.
  intros Hn.
  assert (H : md_ok leapyear n = true).
  { destruct leapyear.
    - apply (forallb_range (md_ok true) 0 365); [vm_compute; reflexivity | simpl in Hn; lia].
    - apply (forallb_range (md_ok false) 0 364); [vm_compute; reflexivity | simpl in Hn; lia]. }
  unfold md_ok in H. destruct (md_of leapyear n) as [m d].
  repeat (apply andb_prop in H; destruct H as [H ?]).
  repeat match goal with
         | H : (_ <=? _) = true |- _ => apply Z.leb_le in H
         | H : (_ =? _) = true |- _ => apply Z.eqb_eq in H
         end.
  lia.
Qed.

Lemma ord2ymd_unfold (n : Z) :
  ord2ymd n =
  let n0 := n - 1 in
  let a := n0 / 146097 in
  let r400 := n0 mod 146097 in
  let b := r400 / 36524 in
  let r100 := r400 mod 36524 in
  let c := r100 / 1461 in
  let r4 := r100 mod 1461 in
  let e := r4 / 365 in
  let k := r4 mod 365 in
  let year := a * 400 + 1 + b * 100 + c * 4 + e in
  if (e =? 4) || (b =? 4) then (year - 1, 12, 31)
  else
    let '(m, d) := md_of ((e =? 3) && (negb (c =? 24) || (b =? 3))) k in
    (year, m, d).
Proof.
  unfold ord2ymd, md_of. cbv zeta.
  destruct (_ || _); [reflexivity|].
  destruct (_ <? _); reflexivity.
Qed.

Lemma days_before_year_decomposed (a b c e : Z) :
  0 <= a -> 0 <= b <= 3 -> 0 <= c <= 24 -> 0 <= e <= 3 ->
  days_before_year (a * 400 + 1 + b * 100 + c * 4 + e)
  = 146097 * a + 36524 * b + 1461 * c + 365 * e.
Proof.
  intros Ha Hb Hc He. unfold days_before_year. cbv zeta.
  Z.to_euclidean_division_equations. lia.
Qed.

Lemma is_leap_decomposed (a b c e : Z) :
  0 <= a -> 0 <= b <= 3 -> 0 <= c <= 24 -> 0 <= e <= 3 ->
  is_leap (a * 400 + 1 + b * 100 + c * 4 + e)
  = (e =? 3) && (negb (c =? 24) || (b =? 3)).
Proof.
  intros Ha Hb Hc He. unfold is_leap.
  set (y := a * 400 + 1 + b * 100 + c * 4 + e).
  assert (H4 : (y mod 4 =? 0) = (e =? 3)).
  { apply eq_true_iff_eq. rewrite !Z.eqb_eq. subst y.
    Z.to_euclidean_division_equations. lia. }
  assert (H100 : e = 3 -> (y mod 100 =? 0) = (c =? 24)).
  { intros ->. apply eq_true_iff_eq. rewrite !Z.eqb_eq. subst y.
    Z.to_euclidean_division_equations. lia. }
  assert (H400 : e = 3 -> c = 24 -> (y mod 400 =? 0) = (b =? 3)).
  { intros -> ->. apply eq_true_iff_eq. rewrite !Z.eqb_eq. subst y.
    Z.to_euclidean_division_equations. lia. }
  rewrite H4. destruct (e =? 3) eqn:E3; [|reflexivity].
  apply Z.eqb_eq in E3. rewrite (H100 E3). simpl andb.
  destruct (c =? 24) eqn:E24; [|reflexivity].
  apply Z.eqb_eq in E24. rewrite (H400 E3 E24). reflexivity.
Qed.

Lemma ord2ymd_spec (n : Z) :
  MIN_ORDINAL <= n <= MAX_ORDINAL ->
  let '(y, m, d) := ord2ymd n in
  1 <= y <= 9999 /\ 1 <= m <= 12 /\ 1 <= d <= days_in_month y m
  /\ ymd2ord y m d = n.
Proof.
  unfold MIN_ORDINAL, MAX_ORDINAL. intros Hn. rewrite ord2ymd_unfold. cbv zeta.
  set (n0 := n - 1).
  pose proof (Z.div_mod n0 146097 ltac:(lia)) as E400.
  pose proof (Z.mod_pos_bound n0 146097 ltac:(lia)) as B400.
  set (a := n0 / 146097) in *. set (r400 := n0 mod 146097) in *.
  pose proof (Z.div_mod r400 36524 ltac:(lia)) as E100.
  pose proof (Z.mod_pos_bound r400 36524 ltac:(lia)) as B100.
  set (b := r400 / 36524) in *. set (r100 := r400 mod 36524) in *.
  pose proof (Z.div_mod r100 1461 ltac:(lia)) as E4.
  pose proof (Z.mod_pos_bound r100 1461 ltac:(lia)) as B4.
  set (c := r100 / 1461) in *. set (r4 := r100 mod 1461) in *.
  pose proof (Z.div_mod r4 365 ltac:(lia)) as E1.
  pose proof (Z.mod_pos_bound r4 365 ltac:(lia)) as B1.
  set (e := r4 / 365) in *. set (k := r4 mod 365) in *.
  assert (Ha : 0 <= a <= 24) by (subst n0; lia).
  assert (Hb : 0 <= b <= 4) by lia.
  assert (Hc : 0 <= c <= 24) by lia.
  assert (He : 0 <= e <= 4) by lia.
  clearbody a r400 b r100 c r4 e k. subst n0.
  destruct (e =? 4) eqn:Ee4; [apply Z.eqb_eq in Ee4 | apply Z.eqb_neq in Ee4].
  - (* last day of a leap year inside a century *)
    simpl orb. cbv iota.
    assert (Hb3 : b <= 3) by lia. assert (Hc23 : c <= 23) by lia.
    assert (Hk : k = 0) by lia. subst e k.
    replace (a * 400 + 1 + b * 100 + c * 4 + 4 - 1)
      with (a * 400 + 1 + b * 100 + c * 4 + 3) by lia.
    unfold days_in_month, ymd2ord, days_before_month.
    rewrite days_before_year_decomposed, is_leap_decomposed by lia.
    replace (c =? 24) with false by (symmetry; apply Z.eqb_neq; lia).
    change (12 =? 2) with false. change (2 <? 12) with true.
    change (3 =? 3) with true.
    cbn [andb orb negb DAYS_IN_MONTH DAYS_BEFORE_MONTH]. lia.
  - destruct (b =? 4) eqn:Eb4; [apply Z.eqb_eq in Eb4 | apply Z.eqb_neq in Eb4].
    + (* last day of a 400-year cycle *)
      simpl orb. cbv iota.
      assert (c = 0 /\ e = 0 /\ k = 0) by lia. destruct H as [-> [-> ->]]. subst b.
      replace (a * 400 + 1 + 4 * 100 + 0 * 4 + 0 - 1)
        with (a * 400 + 1 + 3 * 100 + 24 * 4 + 3) by lia.
      unfold days_in_month, ymd2ord, days_before_month.
      rewrite days_before_year_decomposed, is_leap_decomposed by lia.
      change (12 =? 2) with false. change (2 <? 12) with true.
      change (3 =? 3) with true. change (24 =? 24) with true.
      cbn [andb orb negb DAYS_IN_MONTH DAYS_BEFORE_MONTH]. lia.
    + simpl orb. cbv iota.
      assert (Hb3 : 0 <= b <= 3) by lia. assert (He3 : 0 <= e <= 3) by lia.
      set (leapyear := (e =? 3) && (negb (c =? 24) || (b =? 3))).
      pose proof (md_of_spec leapyear k) as Hmd.
      destruct (md_of leapyear k) as [m d].
      destruct Hmd as [Hm [Hd Hsum]]; [destruct leapyear; lia|].
      unfold days_in_month, ymd2ord, days_before_month.
      rewrite days_before_year_decomposed, is_leap_decomposed by lia.
      fold leapyear.
      assert (Hdim : DAYS_IN_MONTH m + (if (m =? 2) && leapyear then 1 else 0)
                     = if (m =? 2) && leapyear then 29 else DAYS_IN_MONTH m).
      { destruct (m =? 2) eqn:Em; [|simpl; lia].
        apply Z.eqb_eq in Em. subst m. destruct leapyear; reflexivity. }
      rewrite <- Hdim.
      assert (Hyear : 146097 * a + 36524 * b + 1461 * c + 365 * e + k + 1 <= 3652059)
        by lia.
      repeat split; try lia.
  Qed.

Ltac month_case :=
  cbn [DAYS_BEFORE_MONTH DAYS_IN_MONTH andb Z.eqb Z.ltb Z.compare
       Pos.eqb Pos.compare Pos.compare_cont] in *;
  lia.

Lemma month_day_bound (y m d : Z) :
  1 <= m <= 12 -> 1 <= d <= days_in_month y m ->
  1 <= days_before_month y m + d <= 365 + (if is_leap y then 1 else 0).
Proof.
  intros Hm Hd. unfold days_in_month, days_before_month in *.
  assert (Hc : m = 1 \/ m = 2 \/ m = 3 \/ m = 4 \/ m = 5 \/ m = 6 \/ m = 7
               \/ m = 8 \/ m = 9 \/ m = 10 \/ m = 11 \/ m = 12) by lia.
  destruct (is_leap y);
    repeat (destruct Hc as [->|Hc]; [month_case|]); subst m; month_case.
Qed.

(** A day from 1000-01-01 on has a year of four digits. *)
Lemma ord2ymd_year (n : Z) :
  datetime 1000 1 1 <= n <= MAX_ORDINAL -> 1000 <= fst (fst (ord2ymd n)).
Proof.
  change (datetime 1000 1 1) with 364878. intros Hn.
  assert (Hr : MIN_ORDINAL <= n <= MAX_ORDINAL) by (unfold MIN_ORDINAL; lia).
  pose proof (ord2ymd_spec n Hr) as H.
  destruct (ord2ymd n) as [[y m] d]. cbn [fst].
  destruct H as [Hy [Hm [Hd Hymd]]].
  pose proof (month_day_bound y m d Hm Hd) as Hb.
  unfold ymd2ord in Hymd.
  destruct (Z_lt_le_dec y 1000) as [Hlt|]; [exfalso|assumption].
  destruct (Z.eq_dec y 999) as [->|Hne].
  - change (is_leap 999) with false in Hb.
    change (days_before_year 999) with 364512 in Hymd. lia.
  - assert (0 <= days_before_year y <= 364147).
    { unfold days_before_year. cbv zeta.
      Z.to_euclidean_division_equations. lia. }
    destruct (is_leap y); lia.
Qed.

(** [strptime] reads back what [strftime] writes, for every day from
    1000-01-01 to 9999-12-31. *)
Lemma strptime_strftime (n : Z) :
  datetime 1000 1 1 <= n <= MAX_ORDINAL -> strptime (strftime n) = Some n.
Proof.
  intros Hn. pose proof (ord2ymd_year n Hn) as Hy1000.
  assert (Hr : MIN_ORDINAL <= n <= MAX_ORDINAL).
  { change (datetime 1000 1 1) with 364878 in Hn. unfold MIN_ORDINAL. lia. }
  pose proof (ord2ymd_spec n Hr) as H.
  unfold strftime, strptime. destruct (ord2ymd n) as [[y m] d].
  destruct H as [Hy [Hm [Hd Hymd]]]. cbn [fst] in Hy1000.
  unfold year_digits.
  replace (y <? 10) with false by (symmetry; apply Z.ltb_ge; lia).
  replace (y <? 100) with false by (symmetry; apply Z.ltb_ge; lia).
  replace (y <? 1000) with false by (symmetry; apply Z.ltb_ge; lia).
  rewrite parse_year_pad4 by lia. cbn [expect_dash is_char Ascii.eqb Bool.eqb].
  rewrite parse_month_pad2 by lia. cbn [expect_dash is_char Ascii.eqb Bool.eqb].
  assert (Hd31 : d <= 31).
  { unfold days_in_month in Hd.
    destruct ((m =? 2) && is_leap y); [lia|].
    assert (DAYS_IN_MONTH m <= 31); [|lia].
    assert (Hc : m = 1 \/ m = 2 \/ m = 3 \/ m = 4 \/ m = 5 \/ m = 6 \/ m = 7
                 \/ m = 8 \/ m = 9 \/ m = 10 \/ m = 11 \/ m = 12) by lia.
    repeat (destruct Hc as [->|Hc]; [cbn; lia|]). subst m. cbn. lia. }
  rewrite parse_day_pad2 by lia.
  replace ((1 <=? y) && (1 <=? d) && (d <=? days_in_month y m)) with true.
  - now rewrite Hymd.
  - symmetry. rewrite !andb_true_iff, !Z.leb_le. lia.
Qed.

Lemma digit_val_range (c : ascii) : is_digit c = true -> 0 <= digit_val c <= 9.
Proof.
  unfold is_digit, in_range, digit_val. intros H.
  apply andb_prop in H. destruct H as [H1 H2].
  apply Z.leb_le in H1, H2. change (code "0") with 48 in H1.
  change (code "9") with 57 in H2. lia.
Qed.

Lemma in_range_val (lo hi c : ascii) :
  in_range lo hi c = true -> code lo - 48 <= digit_val c <= code hi - 48.
Proof.
  unfold in_range, digit_val. intros H.
  apply andb_prop in H. destruct H as [H1 H2].
  apply Z.leb_le in H1, H2. lia.
Qed.

Lemma is_char_val (x c : ascii) : is_char x c = true -> digit_val c = code x - 48.
Proof.
  unfold is_char. intros H. apply Ascii.eqb_eq in H. now subst.
Qed.

Ltac parsed_value H :=
  match type of H with
  | Some (?x, _) = Some (?y, _) =>
      let E := fresh "E" in assert (E : y = x) by congruence; clear H; subst y
  end.

Lemma parse_year_range (s rest : string) (y : Z) :
  parse_year s = Some (y, rest) -> 0 <= y <= 9999.
Proof.
  unfold parse_year.
  destruct s as [|a [|b [|c [|d r]]]]; try discriminate.
  destruct (is_digit a) eqn:Da; [|discriminate].
  destruct (is_digit b) eqn:Db; [|discriminate].
  destruct (is_digit c) eqn:Dc; [|discriminate].
  destruct (is_digit d) eqn:Dd; [|discriminate].
  simpl andb. cbv iota. intros H. parsed_value H.
  apply digit_val_range in Da, Db, Dc, Dd. lia.
Qed.

Lemma parse_month_range (s rest : string) (m : Z) :
  parse_month s = Some (m, rest) -> 1 <= m <= 12.
Proof.
  unfold parse_month, month2.
  destruct s as [|a [|b r]]; try discriminate.
  - destruct (in_range "1" "9" a) eqn:E; [|discriminate].
    intros H. parsed_value H. apply in_range_val in E.
    change (code "1") with 49 in E. change (code "9") with 57 in E. lia.
  - destruct (is_char "1" a && in_range "0" "2" b) eqn:E1.
    { apply andb_prop in E1. destruct E1 as [Ea Eb].
      apply is_char_val in Ea. apply in_range_val in Eb.
      change (code "1") with 49 in Ea. change (code "0") with 48 in Eb.
      change (code "2") with 50 in Eb.
      simpl orb. cbv iota. intros H. parsed_value H. lia. }
    destruct (is_char "0" a && in_range "1" "9" b) eqn:E2.
    { apply andb_prop in E2. destruct E2 as [Ea Eb].
      apply is_char_val in Ea. apply in_range_val in Eb.
      change (code "0") with 48 in Ea. change (code "1") with 49 in Eb.
      change (code "9") with 57 in Eb.
      simpl orb. cbv iota. intros H. parsed_value H. lia. }
    simpl orb. cbv iota.
    destruct (in_range "1" "9" a) eqn:E; [|discriminate].
    intros H. parsed_value H. apply in_range_val in E.
    change (code "1") with 49 in E. change (code "9") with 57 in E. lia.
Qed.

Lemma ymd2ord_range (y m d : Z) :
  1 <= y <= 9999 -> 1 <= m <= 12 -> 1 <= d <= days_in_month y m ->
  MIN_ORDINAL <= ymd2ord y m d <= MAX_ORDINAL.
Proof.
  intros Hy Hm Hd. pose proof (month_day_bound y m d Hm Hd) as Hb.
  unfold ymd2ord, MIN_ORDINAL, MAX_ORDINAL.
  destruct (Z.eq_dec y 9999) as [->|Hne].
  - change (is_leap 9999) with false in Hb.
    change (days_before_year 9999) with 3651694. lia.
  - assert (0 <= days_before_year y <= 3651330).
    { unfold days_before_year. cbv zeta.
      Z.to_euclidean_division_equations. lia. }
    destruct (is_leap y); lia.
Qed.

(** Every date string [strptime] accepts denotes a day of the calendar
    range. *)
Lemma strptime_range (s : string) (n : Z) :
  strptime s = Some n -> MIN_ORDINAL <= n <= MAX_ORDINAL.
Proof.
  unfold strptime.
  destruct (parse_year s) as [[y s1]|] eqn:Ey; [|discriminate].
  destruct (expect_dash s1) as [s2|]; [|discriminate].
  destruct (parse_month s2) as [[m s3]|] eqn:Em; [|discriminate].
  destruct (expect_dash s3) as [s4|]; [|discriminate].
  destruct (parse_day s4) as [[d s5]|]; [|discriminate].
  destruct s5; [|discriminate].
  destruct ((1 <=? y) && (1 <=? d) && (d <=? days_in_month y m)) eqn:E;
    [|discriminate].
  intros H. injection H as <-.
  rewrite !andb_true_iff, !Z.leb_le in E.
  apply parse_year_range in Ey. apply parse_month_range in Em.
  apply ymd2ord_range; lia.
Qed.

(** The bucket start of a day from 0001-01-03 on is a day of the calendar,
    for an anchor that is a whole number of weeks after 0001-01-03. *)
Lemma week_start_returns (anchor date : Z) :
  (anchor - 3) mod 7 = 0 ->
  3 <= date <= MAX_ORDINAL ->
  week_start anchor date = Ok (anchor + 7 * ((date - anchor) / 7)).
Proof.
  unfold MAX_ORDINAL. intros Ha Hd.
  unfold week_start, week_number, add_days, MIN_ORDINAL, MAX_ORDINAL. cbv zeta.
  replace (anchor + (date - anchor) / 7 * 7) with (anchor + 7 * ((date - anchor) / 7))
    by lia.
  replace ((1 <=? anchor + 7 * ((date - anchor) / 7))
           && (anchor + 7 * ((date - anchor) / 7) <=? 3652059)) with true;
    [reflexivity|].
  symmetry. rewrite andb_true_iff, !Z.leb_le.
  Z.to_euclidean_division_equations. lia.
Qed.

(** Whenever the bucket start is computed it is the floor formula. *)
Lemma week_start_value (anchor date start : Z) :
  week_start anchor date = Ok start ->
  start = anchor + 7 * ((date - anchor) / 7)
  /\ MIN_ORDINAL <= start <= MAX_ORDINAL.
Proof.
  unfold week_start, week_number, add_days. cbv zeta.
  destruct (_ && _) eqn:E; [|discriminate].
  intros H. injection H as <-.
  rewrite andb_true_iff, !Z.leb_le in E. lia.
Qed.

(** ** Conservation of weekly totals ([1_collapse.py]) *)

Section ConservationFacts.
Import Collapse Conservation.

Lemma weekly_total_add (window : list string) (week : string) (n : Z) (acc : dict Z) :
  NoDup window ->
  weekly_total window (add week n acc)
  = weekly_total window acc + (if mem week window then n else 0).
Proof.
  unfold weekly_total. induction window as [|x window IH]; intros Hnd; simpl.
  - reflexivity.
  - inversion Hnd as [|? ? Hx Hnd']; subst.
    rewrite get_default_add, IH by assumption.
    destruct (String.eqb week x) eqn:E; simpl.
    + apply String.eqb_eq in E. subst x.
      apply mem_false in Hx. rewrite Hx. lia.
    + lia.
Qed.

Lemma weekly_total_nil (window : list string) : weekly_total window [] = 0.
Proof. unfold weekly_total. induction window; simpl; auto. Qed.

Lemma collapse_daily_total (window : list string) (daily : dict Z) :
  NoDup window ->
  forall acc weekly,
    collapse_daily daily acc = Ok weekly ->
    weekly_total window weekly
    = weekly_total window acc + sum (map (day_in_window window) daily).
Proof.
  intros Hnd. induction daily as [|[date_str commit_count] daily IH];
    intros acc weekly H; simpl in *.
  - injection H as <-. lia.
  - destruct (0 <? commit_count).
    + destruct (Collapse.get_week_start_date date_str) as [week|e];
        simpl in H; [|discriminate].
      rewrite (IH _ _ H), weekly_total_add by assumption. simpl. lia.
    + rewrite (IH _ _ H). lia.
Qed.

Lemma collapse_users_total (window : list string) (commits_data : dict user_data) :
  NoDup window ->
  forall acc weekly,
    collapse_users commits_data acc = Ok weekly ->
    weekly_total window weekly
    = weekly_total window acc + daily_total window commits_data.
Proof.
  intros Hnd. unfold daily_total.
  induction commits_data as [|[username ud] commits_data IH];
    intros acc weekly H; simpl in *.
  - injection H as <-. lia.
  - destruct (collapse_daily (daily_commits_of ud) acc) as [acc'|e] eqn:E;
      simpl in H; [|discriminate].
    rewrite (IH _ _ H).
    rewrite (collapse_daily_total window _ Hnd _ _ E).
    unfold user_in_window. simpl. lia.
Qed.

Lemma collapse_daily_skip (d1 d2 : dict Z) (date_str : string) (n : Z) :
  n <= 0 ->
  forall acc,
    collapse_daily (d1 ++ (date_str, n) :: d2) acc = collapse_daily (d1 ++ d2) acc.
Proof.
  intros Hn. induction d1 as [|[s c] d1 IH]; intros acc; simpl.
  - destruct (0 <? n) eqn:E; [apply Z.ltb_lt in E; lia | reflexivity].
  - destruct (0 <? c); [|apply IH].
    destruct (Collapse.get_week_start_date s); simpl; [apply IH | reflexivity].
Qed.

Lemma collapse_users_skip (us1 us2 : dict user_data) (username : string)
  (ud ud' : user_data) :
  (forall acc, collapse_daily (daily_commits_of ud) acc
               = collapse_daily (daily_commits_of ud') acc) ->
  forall acc,
    collapse_users (us1 ++ (username, ud) :: us2) acc
    = collapse_users (us1 ++ (username, ud') :: us2) acc.
Proof.
  intros Heq. induction us1 as [|[u x] us1 IH]; intros acc; simpl.
  - now rewrite Heq.
  - destruct (collapse_daily (daily_commits_of x) acc); simpl; auto.
Qed.

Lemma collapse_daily_returns (daily : dict Z) :
  (forall date_str commit_count,
      In (date_str, commit_count) daily -> 0 < commit_count ->
      exists date, strptime date_str = Some date /\ datetime 1 1 3 <= date) ->
  forall acc, exists weekly, collapse_daily daily acc = Ok weekly.
Proof.
  induction daily as [|[s c] daily IH]; intros Hp acc; simpl.
  - eauto.
  - assert (Hrest : forall date_str commit_count,
               In (date_str, commit_count) daily -> 0 < commit_count ->
               exists date, strptime date_str = Some date /\ datetime 1 1 3 <= date)
      by (intros; eapply Hp; [right|]; eassumption).
    destruct (0 <? c) eqn:E; [|now apply IH].
    apply Z.ltb_lt in E.
    destruct (Hp s c (or_introl eq_refl) E) as [date [Es Hd]].
    unfold Collapse.get_week_start_date. rewrite Es.
    change (datetime 1 1 3) with 3 in Hd. apply strptime_range in Es.
    rewrite week_start_returns; [|reflexivity|lia].
    cbn [bind]. now apply IH.
Qed.

(** A dataset whose positive-count days all carry parseable dates is
    collapsed without an exception. *)
Lemma collapse_to_weekly_returns (commits_data : dict user_data) :
  dates_parse commits_data ->
  exists weekly, collapse_to_weekly commits_data = Ok weekly.
Proof.
  unfold collapse_to_weekly. generalize (@nil (string * Z)) as acc.
  induction commits_data as [|[u ud] commits_data IH]; intros acc Hp; simpl.
  - eauto.
  - destruct (collapse_daily_returns (daily_commits_of ud)) with (acc := acc)
      as [acc' E].
    + intros s c Hin Hc. eapply Hp; [left; reflexivity | exact Hin | exact Hc].
    + rewrite E. simpl. apply IH.
      intros u' ud' s c Hin. eapply Hp. right. exact Hin.
Qed.

End ConservationFacts.



(** ** The cohort filter ([6_summary.py], [7_only_graphs.py]) *)

Section CohortFacts.
Import Summary.

Lemma In_values_get (d : dict Z) (k : string) (v : Z) :
  get k d = Some v -> In v (values d).
Proof.
  induction d as [|[k' v'] d IH]; simpl; [discriminate|].
  destruct (String.eqb k k'); intros H.
  - injection H as ->. now left.
  - right. now apply IH.
Qed.

Lemma Forall_values_set (P : Z -> Prop) (k : string) (v : Z) (d : dict Z) :
  Forall P (values d) -> P v -> Forall P (values (set k v d)).
Proof.
  intros Hd Hv. induction d as [|[k' v'] d IH]; simpl.
  - constructor; auto.
  - inversion Hd; subst. destruct (String.eqb k k'); simpl; constructor; auto.
Qed.

Lemma positive_values_add (k : string) (n : Z) (d : dict Z) :
  0 < n ->
  Forall (fun v => 0 < v) (values d) ->
  Forall (fun v => 0 < v) (values (add k n d)).
Proof.
  intros Hn Hd. unfold add. apply Forall_values_set; [assumption|].
  unfold get_default. destruct (get k d) as [v|] eqn:E; [|lia].
  apply In_values_get in E. rewrite Forall_forall in Hd.
  specialize (Hd _ E). simpl in Hd. lia.
Qed.

Lemma get_add_other (k k' : string) (n : Z) (d : dict Z) :
  k <> k' -> get k' (add k n d) = get k' d.
Proof. intros. unfold add. now apply get_set_other. Qed.

Lemma get_add_same (k : string) (n : Z) (d : dict Z) :
  get k (add k n d) = Some (get_default 0 k d + n).
Proof. unfold add. apply get_set_same. Qed.

Section PreWeeks.
Variable pre_treatment_weeks : list string.

(** What one day does to the weekly totals of the filter: nothing, or it
    adds a positive count to a listed week. *)
Lemma pre_day_inv (acc acc' : dict Z) (item : string * Z) :
  pre_day pre_treatment_weeks acc item = Ok acc' ->
  acc' = acc
  \/ exists week,
       0 < snd item
       /\ get_week_start_date (fst item) = Ok (Some week)
       /\ truthy week = true
       /\ In week pre_treatment_weeks
       /\ acc' = add week (snd item) acc.
Proof.
  destruct item as [s c]. unfold pre_day. cbv beta iota.
  destruct (0 <? c) eqn:Ec; [|intros H; injection H as <-; now left].
  apply Z.ltb_lt in Ec.
  destruct (get_week_start_date s) as [[w|]|e] eqn:Eg; cbn [bind];
    [|intros H; injection H as <-; now left|discriminate].
  destruct (truthy w) eqn:Et; cbn [andb];
    [|intros H; injection H as <-; now left].
  destruct (mem w pre_treatment_weeks) eqn:Em;
    intros H; injection H as <-; [|now left].
  right. exists w. apply mem_In in Em. cbn [fst snd]. auto.
Qed.

(** The same day in the loop that keeps every week. *)
Lemma week_day_of_pre_day (acc1 acc1' acc2 : dict Z) (item : string * Z) :
  pre_day pre_treatment_weeks acc1 item = Ok acc1' ->
  exists acc2',
    week_day acc2 item = Ok acc2'
    /\ ((forall w, In w pre_treatment_weeks -> get w acc1 = get w acc2) ->
        forall w, In w pre_treatment_weeks -> get w acc1' = get w acc2').
Proof.
  destruct item as [s c]. unfold pre_day, week_day. cbv beta iota.
  destruct (0 <? c); [|intros H; injection H as <-; eauto].
  destruct (get_week_start_date s) as [[ws|]|e]; cbn [bind];
    [|intros H; injection H as <-; eauto|discriminate].
  destruct (truthy ws); cbn [andb]; [|intros H; injection H as <-; eauto].
  destruct (mem ws pre_treatment_weeks) eqn:E; intros H; injection H as <-;
    eexists; (split; [reflexivity|]); intros Hagree w Hw.
  - destruct (string_dec ws w) as [->|Hne].
    + rewrite !get_add_same. unfold get_default. now rewrite Hagree.
    + rewrite !get_add_other by assumption. auto.
  - apply mem_false in E. rewrite get_add_other; [auto|].
    intros ->. contradiction.
Qed.

Lemma pre_fold_invariant (daily : dict Z) :
  forall acc1 acc2 pre,
    for_each (pre_day pre_treatment_weeks) daily acc1 = Ok pre ->
    (forall k, In k (keys acc1) -> In k pre_treatment_weeks) ->
    NoDup (keys acc1) ->
    Forall (fun v => 0 < v) (values acc1) ->
    (forall w, In w pre_treatment_weeks -> get w acc1 = get w acc2) ->
    exists all,
      for_each week_day daily acc2 = Ok all
      /\ (forall k, In k (keys pre) -> In k pre_treatment_weeks)
      /\ NoDup (keys pre)
      /\ Forall (fun v => 0 < v) (values pre)
      /\ (forall w, In w pre_treatment_weeks -> get w pre = get w all).
Proof.
  induction daily as [|item daily IH]; intros acc1 acc2 pre Hpre Hk Hnd Hpos Hag.
  - injection Hpre as <-. exists acc2. auto.
  - apply for_each_cons in Hpre. destruct Hpre as [acc1' [Hstep Hrest]].
    destruct (week_day_of_pre_day _ _ acc2 _ Hstep) as [acc2' [Hstep2 Hag']].
    cbn [for_each]. rewrite Hstep2. cbn [bind].
    apply (IH acc1' acc2' pre Hrest); [| | |now apply Hag'];
      destruct (pre_day_inv _ _ _ Hstep) as [->|[w [Hc [_ [_ [Hw ->]]]]]]; auto.
    + intros k Hin. unfold add in Hin. apply keys_set_incl in Hin.
      destruct Hin as [->|Hin]; auto.
    + now apply NoDup_keys_set.
    + now apply positive_values_add.
Qed.

End PreWeeks.

(** Two entries of a dictionary under one key are the same entry. *)
Lemma In_dict_functional {V : Type} (d : dict V) (k : string) (v v' : V) :
  NoDup (keys d) -> In (k, v) d -> In (k, v') d -> v = v'.
Proof.
  induction d as [|[k0 v0] d IH]; [contradiction|].
  simpl. intros Hnd Hin Hin'. inversion Hnd as [|? ? Hk Hnd']; subst.
  destruct Hin as [E|Hin], Hin' as [E'|Hin'].
  - congruence.
  - injection E as -> ->. exfalso. apply Hk.
    change k with (fst (k, v')). now apply in_map.
  - injection E' as -> ->. exfalso. apply Hk.
    change k with (fst (k, v)). now apply in_map.
  - now apply IH.
Qed.

(** The users [filter_consistent_users] returns, when it returns: those
    whose check gave [True], after the ones it started with. *)
Lemma filter_consistent_users_fold (pre : list string) (commits_data : dict user_data) :
  forall acc consistent_users,
    for_each
      (fun consistent_users (item : string * user_data) =>
         let '(username, ud) := item in
         consistent <- is_consistent pre ud ;;
         Ok (if consistent then consistent_users ++ [username]
             else consistent_users))
      commits_data acc
    = Ok consistent_users ->
    (forall username ud, In (username, ud) commits_data ->
       exists consistent, is_consistent pre ud = Ok consistent)
    /\ (forall username,
          In username consistent_users
          <-> In username acc
              \/ exists ud, In (username, ud) commits_data
                            /\ is_consistent pre ud = Ok true).
Proof.
  induction commits_data as [|[u ud] commits_data IH]; intros acc result H.
  - injection H as <-. split; [intros ? ? []|].
    intros username. split; [auto|]. intros [Hin|[? [[] _]]]. exact Hin.
  - apply for_each_cons in H. destruct H as [acc' [Hstep Hrest]].
    cbv beta iota in Hstep.
    destruct (is_consistent pre ud) as [b|e] eqn:Eb; cbn [bind] in Hstep;
      [|discriminate].
    injection Hstep as <-.
    destruct (IH _ _ Hrest) as [Hall Hiff]. split.
    + intros username ud' [E|Hin]; [injection E as <- <-; eauto|eauto].
    + intros username. rewrite Hiff. split.
      * intros [Hin|[ud' [Hin Hc]]].
        -- destruct b; [|now left].
           apply in_app_iff in Hin. destruct Hin as [Hin|[<-|[]]]; [now left|].
           right. exists ud. split; [now left | exact Eb].
        -- right. exists ud'. split; [now right | exact Hc].
      * intros [Hin|[ud' [[E|Hin] Hc]]].
        -- left. destruct b; [apply in_app_iff|]; auto.
        -- injection E as <- <-. rewrite Eb in Hc. injection Hc as ->.
           left. apply in_app_iff. right. now left.
        -- right. eauto.
Qed.

Lemma In_filter_consistent_users (pre : list string) (commits_data : dict user_data)
  (consistent_users : list string) (username : string) (ud : user_data) :
  NoDup (keys commits_data) ->
  In (username, ud) commits_data ->
  filter_consistent_users commits_data pre = Ok consistent_users ->
  exists consistent,
    is_consistent pre ud = Ok consistent
    /\ (In username consistent_users <-> consistent = true).
Proof.
  intros Hnd Hin H. unfold filter_consistent_users in H.
  destruct (filter_consistent_users_fold _ _ _ _ H) as [Hall Hiff].
  destruct (Hall _ _ Hin) as [b Hb]. exists b. split; [exact Hb|].
  rewrite Hiff. split.
  - intros [[]|[ud' [Hin' Hc]]].
    rewrite (In_dict_functional _ _ _ _ Hnd Hin Hin') in Hb. congruence.
  - intros ->. right. eauto.
Qed.

End CohortFacts.

Lemma not_all_mem (l keep : list string) :
  forallb (fun w => mem w keep) l = false ->
  exists w, In w l /\ ~ In w keep.
Proof.
  induction l as [|x l IH]; simpl; [discriminate|].
  destruct (mem x keep) eqn:E; simpl.
  - intros H. destruct (IH H) as [w [Hw Hn]]. eauto.
  - intros _. exists x. split; [now left | now apply mem_false].
Qed.

Lemma consistent_weeks (pre : list string) (ud : user_data) (consistent : bool) :
  NoDup pre ->
  Summary.is_consistent pre ud = Ok consistent ->
  exists weekly,
    Summary.user_weekly_commits ud = Ok weekly
    /\ (consistent = true ->
        forall week, In week pre ->
          exists total, get week weekly = Some total /\ 0 < total)
    /\ (consistent = false ->
        exists week, In week pre /\ get week weekly = None).
Proof.
  intros Hpre. unfold Summary.is_consistent, Summary.user_weekly_commits.
  destruct (for_each (Summary.pre_day pre) (daily_commits_of ud) []) as [P|e] eqn:EP;
    cbn [bind]; [|discriminate].
  intros Hc. injection Hc as <-.
  destruct (pre_fold_invariant pre (daily_commits_of ud) [] [] P EP)
    as [weekly [Hall [Hk [Hnd [Hpos Hag]]]]];
    [intros ? [] | apply NoDup_nil | apply Forall_nil | reflexivity |].
  exists weekly. split; [exact Hall|].
  assert (Hlen : List.length P = List.length (keys P))
    by (unfold keys; now rewrite length_map).
  split.
  - intros H week Hweek. apply andb_prop in H. destruct H as [Hl _].
    apply Nat.eqb_eq in Hl.
    assert (Hin : In week (keys P)).
    { apply (@NoDup_length_incl _ (keys P) pre Hnd); [lia | exact Hk | exact Hweek]. }
    apply get_In_keys in Hin.
    destruct (get week P) as [v|] eqn:E; [|congruence].
    exists v. split; [now rewrite <- Hag|].
    apply In_values_get in E. rewrite Forall_forall in Hpos. now apply Hpos.
  - intros H.
    assert (Hforall : forallb (fun v => 0 <? v) (values P) = true).
    { apply forallb_forall. intros v Hv. apply Z.ltb_lt.
      rewrite Forall_forall in Hpos. now apply Hpos. }
    rewrite Hforall, andb_true_r in H. apply Nat.eqb_neq in H.
    destruct (forallb (fun w => mem w (keys P)) pre) eqn:E.
    + exfalso. apply H.
      assert (Hincl : incl pre (keys P)).
      { intros w Hw. rewrite forallb_forall in E. apply mem_In. now apply E. }
      pose proof (NoDup_incl_length Hpre Hincl).
      pose proof (NoDup_incl_length Hnd Hk). lia.
    + destruct (not_all_mem _ _ E) as [w [Hw Hn]].
      exists w. split; [assumption|]. rewrite <- Hag by assumption.
      destruct (get w P) eqn:G; [|reflexivity].
      exfalso. apply Hn. apply get_In_keys. congruence.
Qed.

(** C2. Cohort membership is exact.  For [commits_data] a dictionary (user
    names are distinct keys) and [pre_treatment_weeks] a collection of
    distinct week buckets (empty or not), let [consistent_users] be what
    [filter_consistent_users] returns.  The weekly totals built from a
    user's daily commits exist; for a returned user they have an entry for
    every listed week, each strictly positive; for a user not returned a
    listed week has its total missing (or zero). *)
Theorem cohort_membership_exact
  (commits_data : dict user_data) (pre_treatment_weeks : list string)
  (consistent_users : list string) (username : string) (ud : user_data)
  (Husers : NoDup (keys commits_data))
  (Hweeks : NoDup pre_treatment_weeks)
  (Huser : In (username, ud) commits_data)
  (Hreturn : Summary.filter_consistent_users commits_data pre_treatment_weeks
             = Ok consistent_users) :
  exists weekly,
    Summary.user_weekly_commits ud = Ok weekly
    /\ (In username consistent_users ->
        forall week, In week pre_treatment_weeks ->
          exists total, get week weekly = Some total /\ 0 < total)
    /\ (~ In username consistent_users ->
        exists week, In week pre_treatment_weeks
          /\ (get week weekly = None \/ get week weekly = Some 0)).
Proof.
  destruct (In_filter_consistent_users pre_treatment_weeks commits_data
              consistent_users username ud Husers Huser Hreturn)
    as [consistent [Hc Hiff]].
  destruct (consistent_weeks pre_treatment_weeks ud consistent Hweeks Hc)
    as [weekly [Hweekly [Hyes Hno]]].
  exists weekly. split; [exact Hweekly|]. split.
  - intros Hin. apply Hyes. now apply Hiff.
  - intros Hout. destruct consistent.
    + exfalso. apply Hout. now apply Hiff.
    + destruct (Hno eq_refl) as [w [Hw Hg]]. exists w. auto.
Qed.

Lemma cohort_membership_exact_witness :
  let ana := with_daily [("2024-05-01", 2); ("2024-05-09", 1); ("2024-05-10", 3)] in
  let ben := with_daily [("2024-05-02", 4); ("2024-05-07", 0)] in
  let data := [("ana", ana); ("ben", ben)] in
  let pre := ["2024-05-01"; "2024-05-08"] in
  Summary.filter_consistent_users data pre = Ok ["ana"]
  /\ (exists weekly,
        Summary.user_weekly_commits ana = Ok weekly
        /\ exists total, get "2024-05-08" weekly = Some total /\ 0 < total)
  /\ (exists weekly,
        Summary.user_weekly_commits ben = Ok weekly
        /\ exists week, In week pre
             /\ (get week weekly = None \/ get week weekly = Some 0)).
Proof.
  intros ana ben data pre.
  assert (Hu : NoDup (keys data))
    by (repeat constructor; simpl; intuition discriminate).
  assert (Hw : NoDup pre)
    by (repeat constructor; simpl; intuition discriminate).
  assert (Hr : Summary.filter_consistent_users data pre = Ok ["ana"])
    by (vm_compute; reflexivity).
  split; [exact Hr|]. split.
  - destruct (cohort_membership_exact data pre ["ana"] "ana" ana Hu Hw)
      as [weekly [Hweekly [H _]]]; [simpl; auto | exact Hr |].
    exists weekly. split; [exact Hweekly|].
    apply H; simpl; auto.
  - destruct (cohort_membership_exact data pre ["ana"] "ben" ben Hu Hw)
      as [weekly [Hweekly [_ H]]]; [simpl; auto | exact Hr |].
    exists weekly. split; [exact Hweekly|].
    apply H. intros [E|[]]. discriminate.
Defined.

(** With an empty window the aggregation loop of a user keeps nothing; it
    ends early only on a date whose bucket start is before the calendar. *)
Lemma pre_day_empty_window (daily : dict Z) :
  for_each (Summary.pre_day []) daily [] = Ok []
  \/ for_each (Summary.pre_day []) daily [] = Raise OverflowError.
Proof.
  induction daily as [|[s c] daily IH]; cbn [for_each]; [now left|].
  unfold Summary.pre_day at 1 3. cbv beta iota.
  destruct (0 <? c); [|exact IH].
  unfold Summary.get_week_start_date.
  destruct (strptime s) as [date|]; [|exact IH].
  unfold week_start, add_days. cbv zeta.
  destruct (_ && _); cbn [bind]; [|now right].
  rewrite andb_false_r. exact IH.
Qed.

Lemma is_consistent_empty_window (ud : user_data) :
  Summary.is_consistent [] ud = Ok true
  \/ Summary.is_consistent [] ud = Raise OverflowError.
Proof.
  unfold Summary.is_consistent.
  destruct (pre_day_empty_window (daily_commits_of ud)) as [-> | ->];
    [now left | now right].
Qed.

Lemma pre_day_returns (pre : list string) (daily : dict Z) :
  (forall date_str commit_count date,
      In (date_str, commit_count) daily -> 0 < commit_count ->
      strptime date_str = Some date -> datetime 1 1 3 <= date) ->
  forall acc, exists weekly, for_each (Summary.pre_day pre) daily acc = Ok weekly.
Proof.
  induction daily as [|[s c] daily IH]; intros Hd acc; cbn [for_each]; [eauto|].
  assert (Hrest : forall date_str commit_count date,
             In (date_str, commit_count) daily -> 0 < commit_count ->
             strptime date_str = Some date -> datetime 1 1 3 <= date)
    by (intros; eapply Hd; [right|..]; eassumption).
  unfold Summary.pre_day at 1. cbv beta iota.
  destruct (0 <? c) eqn:Ec; [|now apply IH]. apply Z.ltb_lt in Ec.
  unfold Summary.get_week_start_date.
  destruct (strptime s) as [date|] eqn:Es; [|now apply IH].
  pose proof (Hd s c date (or_introl eq_refl) Ec Es) as Hdate.
  change (datetime 1 1 3) with 3 in Hdate. apply strptime_range in Es.
  rewrite week_start_returns; [|reflexivity|lia]. cbn [bind].
  destruct (_ && _); now apply IH.
Qed.

(** [filter_consistent_users] returns for every window when no active day
    is dated before 0001-01-03. *)
Lemma filter_consistent_users_returns (pre : list string)
  (commits_data : dict user_data) :
  Conservation.dates_in_calendar commits_data ->
  exists consistent_users,
    Summary.filter_consistent_users commits_data pre = Ok consistent_users.
Proof.
  intros Hd. unfold Summary.filter_consistent_users.
  set (step := fun (consistent_users : list string) (item : string * user_data) => _).
  generalize (@nil string) as acc.
  induction commits_data as [|[u ud] commits_data IH]; intros acc;
    cbn [for_each]; [eauto|].
  unfold step at 1. cbv beta iota. unfold Summary.is_consistent at 1.
  destruct (pre_day_returns pre (daily_commits_of ud)) with (acc := @nil (string * Z))
    as [weekly ->].
  - intros s c d Hin. eapply Hd. left. reflexivity. exact Hin.
  - cbn [bind]. apply IH.
    intros u' ud' s c d Hin. eapply Hd. right. exact Hin.
Qed.

(** C3, as the code has it.  With an empty [pre_treatment_weeks] no week
    can be missing, so [filter_consistent_users] returns every user of
    [commits_data], in iteration order: nobody is disqualified.  It returns
    whenever no active day is dated before 0001-01-03, and the only other
    outcome is the [OverflowError] of such a date. *)
Theorem filter_consistent_users_empty_window (commits_data : dict user_data) :
  (Summary.filter_consistent_users commits_data [] = Ok (keys commits_data)
   \/ Summary.filter_consistent_users commits_data [] = Raise OverflowError)
  /\ (Conservation.dates_in_calendar commits_data ->
      Summary.filter_consistent_users commits_data [] = Ok (keys commits_data)).
Proof.
  unfold Summary.filter_consistent_users.
  assert (Hgen : forall acc,
             (for_each
                (fun consistent_users (item : string * user_data) =>
                   let '(username, ud) := item in
                   consistent <- Summary.is_consistent [] ud ;;
                   Ok (if consistent then consistent_users ++ [username]
                       else consistent_users))
                commits_data acc = Ok (acc ++ keys commits_data)
              \/ for_each
                   (fun consistent_users (item : string * user_data) =>
                      let '(username, ud) := item in
                      consistent <- Summary.is_consistent [] ud ;;
                      Ok (if consistent then consistent_users ++ [username]
                          else consistent_users))
                   commits_data acc = Raise OverflowError)
             /\ (Conservation.dates_in_calendar commits_data ->
                 for_each
                   (fun consistent_users (item : string * user_data) =>
                      let '(username, ud) := item in
                      consistent <- Summary.is_consistent [] ud ;;
                      Ok (if consistent then consistent_users ++ [username]
                          else consistent_users))
                   commits_data acc = Ok (acc ++ keys commits_data))).
  { induction commits_data as [|[u ud] commits_data IH]; intros acc;
      cbn [for_each keys map fst].
    - rewrite app_nil_r. auto.
    - cbv beta iota.
      replace (acc ++ u :: map fst commits_data)
        with ((acc ++ [u]) ++ keys commits_data)
        by (now rewrite <- app_assoc).
      split.
      + destruct (is_consistent_empty_window ud) as [-> | ->]; cbn [bind];
          [apply IH | now right].
      + intros Hd.
        assert (Hrest : Conservation.dates_in_calendar commits_data)
          by (intros u' ud' s c d Hin; eapply Hd; right; exact Hin).
        destruct (is_consistent_empty_window ud) as [-> | E]; cbn [bind];
          [now apply IH|].
        exfalso. unfold Summary.is_consistent in E.
        destruct (pre_day_returns [] (daily_commits_of ud)) with (acc := @nil (string * Z))
          as [weekly Hw].
        * intros s c d Hin. eapply Hd. left. reflexivity. exact Hin.
        * rewrite Hw in E. discriminate. }
  apply (Hgen []).
Qed.

Lemma filter_consistent_users_empty_window_witness :
  let data := [("ana", with_daily [("2024-05-01", 2); ("not a date", 1)]);
               ("ben", with_daily [("2024-06-11", 0)])] in
  Summary.filter_consistent_users data [] = Ok ["ana"; "ben"].
Proof.
  intros data.
  destruct (filter_consistent_users_empty_window data) as [_ H].
  apply H. intros username ud date_str commit_count date Hu Hd Hc Hs.
  simpl in Hu.
  destruct Hu as [E|[E|[]]]; injection E as <- <-; simpl in Hd.
  - destruct Hd as [E|[E|[]]]; injection E as <- <-.
    + vm_compute in Hs. injection Hs as <-. vm_compute. discriminate.
    + vm_compute in Hs. discriminate.
  - destruct Hd as [E|[]]. injection E as <- <-. lia.
Defined.

(** C3 as stated fails: with an empty window two active users are both
    returned. *)
Lemma filter_consistent_users_empty_window_counterexample :
  let data := [("ana", with_daily [("2024-05-01", 2)]);
               ("ben", with_daily [("2024-06-11", 0)])] in
  Summary.filter_consistent_users data [] = Ok ["ana"; "ben"]
  /\ Summary.filter_consistent_users data [] <> Ok [].
Proof.
  intros data. split; [reflexivity | discriminate].
Qed.

(** ** Degenerate input of the outlier detectors
    ([2_outliers.py], [main/3_individual_outliers.py]) *)

Lemma stats_mean_zeros (values : list Z) :
  Forall (fun v => v = 0) values ->
  (IndividualOutliers.stats_mean values == 0)%Q.
Proof.
  intros H. unfold IndividualOutliers.stats_mean.
  destruct (is_empty values); [reflexivity|].
  assert (E : sum values = 0) by (induction H; simpl; lia).
  rewrite E. unfold Qdiv. apply Qmult_0_l.
Qed.

Lemma analyze_outliers_nonempty (item : string * Z) (rest : dict Z) :
  exists a, Outliers.analyze_outliers (item :: rest) = Ok a.
Proof. unfold Outliers.analyze_outliers. simpl. eauto. Qed.

(** C4, as the code has it.  [find_outliers_by_method] returns five empty
    lists, without raising, when the values are empty or all zero (the mean
    entry of their statistics is then 0); [analyze_outliers] raises
    [ValueError] on an empty mapping and returns an analysis, without
    raising, on every non-empty one. *)
Theorem degenerate_outlier_detection
  (values : list Z) (usernames : list string) (st : IndividualOutliers.stats)
  (Hzero : Forall (fun v => v = 0) values)
  (Hmean : (IndividualOutliers.mean st == IndividualOutliers.stats_mean values)%Q) :
  IndividualOutliers.find_outliers_by_method values usernames st
  = IndividualOutliers.mk_outliers [] [] [] [] []
  /\ Outliers.analyze_outliers [] = Raise ValueError
  /\ (forall item rest, exists a, Outliers.analyze_outliers (item :: rest) = Ok a).
Proof.
  split; [|split; [reflexivity | apply analyze_outliers_nonempty]].
  unfold IndividualOutliers.find_outliers_by_method.
  assert (E : Qeq_bool (IndividualOutliers.mean st) 0 = true).
  { apply Qeq_bool_iff. rewrite Hmean. now apply stats_mean_zeros. }
  rewrite E, orb_true_r. reflexivity.
Qed.

Lemma degenerate_outlier_detection_witness :
  let st := IndividualOutliers.mk_stats 0 0 0 0 0 0 0 0
              (0%Q, 0%Q) (0%Q, 0%Q) (0%Q, 0%Q) 0 0 in
  IndividualOutliers.find_outliers_by_method [0; 0; 0] ["ana"; "ben"; "cy"] st
  = IndividualOutliers.mk_outliers [] [] [] [] [].
Proof.
  intros st.
  apply (degenerate_outlier_detection [0; 0; 0] ["ana"; "ben"; "cy"] st).
  - repeat constructor.
  - vm_compute. reflexivity.
Defined.

(** C4 as stated fails: the empty mapping makes [analyze_outliers] raise,
    and an all-zero mapping has every week put in the highest band. *)
Lemma degenerate_outlier_detection_counterexample :
  Outliers.analyze_outliers [] = Raise ValueError
  /\ (exists a,
        Outliers.analyze_outliers [("2024-05-01", 0); ("2024-05-08", 0)] = Ok a
        /\ Outliers.flagged a = [("2024-05-01", 0); ("2024-05-08", 0)]).
Proof.
  split; [reflexivity|]. eexists. split; reflexivity.
Qed.

(** ** Malformed dates *)

Lemma fold_left_skip {A B : Type} (f : A -> B -> A) (x : B) (l1 l2 : list B) :
  (forall a, f a x = a) ->
  forall a, fold_left f (l1 ++ x :: l2) a = fold_left f (l1 ++ l2) a.
Proof.
  intros H a. rewrite !fold_left_app. simpl. now rewrite H.
Qed.

Lemma for_each_skip {A B : Type} (f : A -> B -> pyres A) (x : B) (l1 l2 : list B) :
  (forall a, f a x = Ok a) ->
  forall a, for_each f (l1 ++ x :: l2) a = for_each f (l1 ++ l2) a.
Proof.
  intros H a. rewrite !for_each_app.
  destruct (for_each f l1 a) as [a'|e]; cbn [bind for_each]; [|reflexivity].
  now rewrite H.
Qed.

(** [filter_may_august_commits] drops a record whose date does not parse
    and keeps going. *)
Lemma filter_may_august_commits_skips (d1 d2 : dict Z) (date_str : string) (n : Z) :
  strptime date_str = None ->
  IndividualOutliers.filter_may_august_commits (d1 ++ (date_str, n) :: d2)
  = IndividualOutliers.filter_may_august_commits (d1 ++ d2).
Proof.
  intros H. unfold IndividualOutliers.filter_may_august_commits.
  apply fold_left_skip. intros a. simpl. now rewrite H.
Qed.

(** So does the matrix builder of [main/5_user_week.py], whose
    [get_week_start_date] turns the [ValueError] into [None]. *)
Lemma create_user_week_matrix_skips (us1 us2 : dict user_data) (username : string)
  (d1 d2 : dict Z) (date_str : string) (n : Z) (total : option Z) :
  strptime date_str = None ->
  UserWeek.create_user_week_matrix
    (us1 ++ (username, mk_user_data (Some (d1 ++ (date_str, n) :: d2)) total) :: us2)
  = UserWeek.create_user_week_matrix
      (us1 ++ (username, mk_user_data (Some (d1 ++ d2)) total) :: us2).
Proof.
  intros H. unfold UserWeek.create_user_week_matrix.
  rewrite !for_each_app. cbn [for_each].
  destruct (for_each UserWeek.matrix_user us1 ([], [])) as [acc|e]; cbn [bind];
    [|reflexivity].
  unfold UserWeek.matrix_user at 1 3. cbv beta iota.
  unfold daily_commits_of. cbn [ud_daily_commits].
  rewrite (for_each_skip (UserWeek.matrix_day username)); [reflexivity|].
  intros [data weeks]. unfold UserWeek.matrix_day, UserWeek.get_week_start_date.
  cbv beta iota. rewrite H. now destruct (0 <? n).
Qed.

Lemma collapse_daily_raises (daily : dict Z) (date_str : string) (n : Z) :
  In (date_str, n) daily -> 0 < n -> strptime date_str = None ->
  forall acc, exists e, Collapse.collapse_daily daily acc = Raise e.
Proof.
  intros Hin Hn Hs. induction daily as [|[s c] daily IH]; intros acc;
    cbn [Collapse.collapse_daily].
  - contradiction.
  - destruct Hin as [E|Hin].
    + injection E as -> ->. apply Z.ltb_lt in Hn. rewrite Hn.
      unfold Collapse.get_week_start_date. rewrite Hs. cbn [bind]. eauto.
    + destruct (0 <? c); [|now apply IH].
      destruct (Collapse.get_week_start_date s) as [w|e]; cbn [bind];
        [now apply IH | eauto].
Qed.

(** In [1_collapse.py] one malformed date on a day with commits aborts the
    aggregation of the whole dataset. *)
Lemma collapse_to_weekly_raises (commits_data : dict user_data)
  (username : string) (ud : user_data) (date_str : string) (n : Z) :
  In (username, ud) commits_data ->
  In (date_str, n) (daily_commits_of ud) -> 0 < n -> strptime date_str = None ->
  exists e, Collapse.collapse_to_weekly commits_data = Raise e.
Proof.
  intros Hu Hd Hn Hs. unfold Collapse.collapse_to_weekly.
  generalize (@nil (string * Z)) as acc.
  induction commits_data as [|[u x] commits_data IH]; intros acc;
    cbn [Collapse.collapse_users].
  - contradiction.
  - destruct Hu as [E|Hu].
    + injection E as -> ->.
      destruct (collapse_daily_raises _ _ _ Hd Hn Hs acc) as [e ->].
      cbn [bind]. eauto.
    + destruct (Collapse.collapse_daily (daily_commits_of x) acc) as [acc'|e];
        cbn [bind]; [now apply IH | eauto].
Qed.

(** C5 at the failing input.  [collapse_to_weekly] of [1_collapse.py]
    raises [ValueError] on a dataset with one malformed date, although the
    same dataset without that record collapses to a weekly total; the
    claim asks for the record to be skipped, which is what
    [filter_may_august_commits] and the matrix builder of
    [main/5_user_week.py] do with it. *)
Theorem collapse_to_weekly_malformed_date_aborts :
  let bad := ("17/07/2024", 1) in
  let ana := with_daily [("2024-07-17", 3)] in
  Collapse.collapse_to_weekly
    [("ana", ana); ("ben", with_daily [bad; ("2024-07-18", 2)])]
  = Raise ValueError
  /\ Collapse.collapse_to_weekly
       [("ana", ana); ("ben", with_daily [("2024-07-18", 2)])]
     = Ok [("2024-07-17", 5)]
  /\ IndividualOutliers.filter_may_august_commits [bad; ("2024-07-18", 2)]
     = [("2024-07-18", 2)]
  /\ UserWeek.create_user_week_matrix
       [("ana", ana); ("ben", with_daily [bad; ("2024-07-18", 2)])]
     = Ok ([("ana", [("2024-07-17", 3)]); ("ben", [("2024-07-17", 2)])],
           ["2024-07-17"]).
Proof.
  repeat split; vm_compute; reflexivity.
Qed.

(** ** Week bucketing *)

Lemma week_number_negative (anchor date : Z) :
  week_number anchor date < 0 <-> date < anchor.
Proof.
  unfold week_number. cbv zeta. split; intros H.
  - destruct (Z.lt_ge_cases date anchor) as [|Hge]; [assumption|].
    assert (0 <= (date - anchor) / 7) by (apply Z.div_pos; lia). lia.
  - apply Z.div_lt_upper_bound; lia.
Qed.

(** The bucket start of a day is in the same bucket as the day. *)
Lemma floor_week_fixed (anchor date : Z) :
  let start := anchor + 7 * ((date - anchor) / 7) in
  start <= date < start + 7
  /\ anchor + 7 * ((start - anchor) / 7) = start.
Proof.
  cbv zeta. split.
  - Z.to_euclidean_division_equations. lia.
  - replace (anchor + 7 * ((date - anchor) / 7) - anchor)
      with ((date - anchor) / 7 * 7) by lia.
    now rewrite Z.div_mul.
Qed.

(** 1000-01-01 is a bucket start, so the bucket start of a day of the
    year 1000 or later is in the year 1000 or later. *)
Lemma week_start_four_digits (date : Z) :
  datetime 1000 1 1 <= date ->
  datetime 1000 1 1
  <= Collapse.reference_date + 7 * ((date - Collapse.reference_date) / 7).
Proof.
  change (datetime 1000 1 1) with 364878.
  change Collapse.reference_date with 739084.
  intros H. Z.to_euclidean_division_equations. lia.
Qed.




(** ** Relative-threshold removal of weeks ([main/4_without_outliers.py]) *)

Section WeeklyOutlierFacts.
Import WithoutOutliers.

Definition above (threshold : Q) (item : string * Z) : bool :=
  negb (Qle_bool (inject_Z (snd item)) threshold).

Lemma removed_weeks_filter (threshold : Q) (weekly_data : dict Z) :
  forall kept removed,
    snd (fold_left (outlier_step threshold) weekly_data (kept, removed))
    = removed ++ filter (above threshold) weekly_data.
Proof.
  induction weekly_data as [|[week commits] l IH]; intros kept removed; simpl.
  - now rewrite app_nil_r.
  - unfold above at 1. simpl.
    destruct (Qle_bool (inject_Z commits) threshold); simpl; rewrite IH.
    + reflexivity.
    + now rewrite <- app_assoc.
Qed.

Lemma sum_nonneg (l : list Z) : Forall (fun v => 0 <= v) l -> 0 <= sum l.
Proof. induction 1; simpl; lia. Qed.

Lemma average_nonneg (total : Z) (n : nat) :
  0 <= total -> (0 <= inject_Z total / inject_Z (Z.of_nat n))%Q.
Proof.
  intros H. unfold Qdiv. apply Qmult_le_0_compat.
  - change 0%Q with (inject_Z 0). now rewrite <- Zle_Qle.
  - destruct n as [|n]; [simpl; apply Qle_refl|].
    apply Qlt_le_weak, Qinv_lt_0_compat.
    change 0%Q with (inject_Z 0). rewrite <- Zlt_Qlt. lia.
Qed.

Lemma threshold_monotone (average p1 p2 : Q) :
  (0 <= average)%Q -> (p1 <= p2)%Q ->
  (average * (1 + p1 / 100) <= average * (1 + p2 / 100))%Q.
Proof.
  intros Ha Hp. rewrite !(Qmult_comm average).
  apply Qmult_le_compat_r; [|assumption].
  apply Qplus_le_r. unfold Qdiv. apply Qmult_le_compat_r; [assumption|].
  discriminate.
Qed.

End WeeklyOutlierFacts.

(** C7. Relative-threshold monotonicity.  For a mapping of weekly totals
    (sums of commit counts, hence none negative) and two percentages
    [p1 <= p2], every week that [remove_weekly_outliers] flags with [p2] is
    flagged with [p1] too. *)
Theorem remove_weekly_outliers_monotone
  (weekly_data : dict Z) (p1 p2 : Q)
  (Htotals : Forall (fun v => 0 <= v) (values weekly_data))
  (Hle : (p1 <= p2)%Q) :
  incl (snd (WithoutOutliers.remove_weekly_outliers weekly_data p2))
       (snd (WithoutOutliers.remove_weekly_outliers weekly_data p1)).
Proof.
  unfold WithoutOutliers.remove_weekly_outliers.
  destruct (is_empty weekly_data); [apply incl_refl|].
  destruct (List.length (values weekly_data) =? 0)%nat; [apply incl_refl|].
  rewrite !removed_weeks_filter. simpl.
  intros item Hin. apply filter_In in Hin. destruct Hin as [Hin Hab].
  apply filter_In. split; [assumption|].
  unfold above in *. apply negb_true_iff in Hab. apply negb_true_iff.
  match goal with
  | |- ?b = false => destruct b eqn:E; [|reflexivity]
  end.
  rewrite <- Hab. symmetry. apply Qle_bool_iff.
  apply Qle_bool_iff in E. eapply Qle_trans; [exact E|].
  apply threshold_monotone; [|assumption].
  apply average_nonneg. now apply sum_nonneg.
Qed.

Lemma remove_weekly_outliers_monotone_witness :
  let weekly := [("2024-05-01", 100); ("2024-05-08", 100);
                 ("2024-05-15", 100); ("2024-05-22", 400)] in
  snd (WithoutOutliers.remove_weekly_outliers weekly 100) = [("2024-05-22", 400)]
  /\ incl (snd (WithoutOutliers.remove_weekly_outliers weekly 100))
          (snd (WithoutOutliers.remove_weekly_outliers weekly 50)).
Proof.
  intros weekly. split; [reflexivity|].
  apply (remove_weekly_outliers_monotone weekly 50 100).
  - repeat constructor; simpl; lia.
  - discriminate.
Defined.

(** ** Activity classes ([main/3_individual_outliers.py]) *)

Section ClassificationFacts.
Import IndividualOutliers.

Definition all_classes (r : classification) : list string :=
  inactive r ++ casual r ++ power_users r ++ regular r.

Definition disjoint (l1 l2 : list string) : Prop :=
  forall x, In x l1 -> ~ In x l2.

Lemma classify_step_perm (acc : classification) (item : string * user_data) :
  Permutation (all_classes (classify_step acc item)) (fst item :: all_classes acc).
Proof.
  destruct item as [u ud]. unfold classify_step, all_classes. simpl.
  destruct (calculate_total_commits_may_aug (daily_commits_of ud) =? 0);
    [|destruct (Qle_bool _ 3); [|destruct (Qle_bool 200 _)]]; simpl;
    symmetry.
  - rewrite <- app_assoc. apply Permutation_middle.
  - rewrite <- (app_assoc (casual acc)), (app_assoc (inactive acc)).
    simpl. rewrite (app_assoc (inactive acc) (casual acc)).
    apply Permutation_middle.
  - rewrite <- (app_assoc (power_users acc)). simpl.
    rewrite (app_assoc (casual acc)), (app_assoc (inactive acc)).
    rewrite (app_assoc (casual acc)), (app_assoc (inactive acc) (casual acc ++ _)).
    apply Permutation_middle.
  - rewrite !app_assoc. apply Permutation_cons_append.
Qed.

Lemma classify_fold_perm (commits_data : dict user_data) :
  forall acc,
    Permutation (all_classes (fold_left classify_step commits_data acc))
                (all_classes acc ++ keys commits_data).
Proof.
  induction commits_data as [|item l IH]; intros acc; simpl.
  - now rewrite app_nil_r.
  - rewrite IH. rewrite classify_step_perm. simpl.
    apply Permutation_middle.
Qed.

Lemma NoDup_app_disjoint (l1 l2 : list string) :
  NoDup (l1 ++ l2) -> NoDup l1 /\ NoDup l2 /\ disjoint l1 l2.
Proof.
  induction l1 as [|x l1 IH]; simpl; intros H.
  - repeat split; [constructor | assumption | intros x []].
  - inversion H as [|? ? Hx Hnd]; subst.
    destruct (IH Hnd) as [H1 [H2 Hd]].
    repeat split; [|assumption|].
    + constructor; [|assumption]. intros Hin. apply Hx, in_or_app. now left.
    + intros y [->|Hy] Hin; [|now apply (Hd y)].
      apply Hx, in_or_app. now right.
Qed.

End ClassificationFacts.

(** C9. Activity classification is a partition.  The four lists returned by
    [classify_users_by_activity] together hold the users of [commits_data],
    each as many times as it is a key (once, for a dictionary), and are
    pairwise disjoint: every user is in exactly one class. *)
Theorem classification_partition
  (commits_data : dict user_data)
  (Husers : NoDup (keys commits_data)) :
  let r := IndividualOutliers.classify_users_by_activity commits_data in
  let inactive := IndividualOutliers.inactive r in
  let casual := IndividualOutliers.casual r in
  let power_users := IndividualOutliers.power_users r in
  let regular := IndividualOutliers.regular r in
  Permutation (inactive ++ casual ++ power_users ++ regular) (keys commits_data)
  /\ (forall u, In u (keys commits_data)
                <-> In u inactive \/ In u casual \/ In u power_users \/ In u regular)
  /\ NoDup inactive /\ NoDup casual /\ NoDup power_users /\ NoDup regular
  /\ disjoint inactive casual /\ disjoint inactive power_users
  /\ disjoint inactive regular /\ disjoint casual power_users
  /\ disjoint casual regular /\ disjoint power_users regular.
Proof.
  intros r inactive casual power_users regular.
  assert (Hp : Permutation (inactive ++ casual ++ power_users ++ regular)
                           (keys commits_data)).
  { apply (classify_fold_perm commits_data
             (IndividualOutliers.mk_classification [] [] [] [])). }
  assert (Hnd : NoDup (inactive ++ casual ++ power_users ++ regular)).
  { eapply Permutation_NoDup; [symmetry; exact Hp | exact Husers]. }
  destruct (NoDup_app_disjoint _ _ Hnd) as [Hi [Hnd1 Hd1]].
  destruct (NoDup_app_disjoint _ _ Hnd1) as [Hc [Hnd2 Hd2]].
  destruct (NoDup_app_disjoint _ _ Hnd2) as [Hpw [Hr Hd3]].
  split; [exact Hp|]. split.
  { intros u. split; intros H.
    - apply (Permutation_in _ (Permutation_sym Hp)) in H.
      repeat (apply in_app_or in H; destruct H as [H|H]; auto).
    - apply (Permutation_in _ Hp).
      repeat rewrite in_app_iff. tauto. }
  repeat split; try assumption; intros x Hx Hin.
  - apply (Hd1 x Hx). apply in_or_app. now left.
  - apply (Hd1 x Hx). apply in_or_app. right. apply in_or_app. now left.
  - apply (Hd1 x Hx). apply in_or_app. right. apply in_or_app. now right.
  - apply (Hd2 x Hx). apply in_or_app. now left.
  - apply (Hd2 x Hx). apply in_or_app. now right.
Qed.

Lemma classification_partition_witness :
  let data := [("idle", with_daily [("2024-04-30", 9); ("2024-06-01", 0)]);
               ("ana", with_daily [("2024-05-01", 12)]);
               ("ben", with_daily [("2024-05-01", 13)]);
               ("cy", with_daily [("2024-05-02", 500); ("2024-08-01", 300)])] in
  IndividualOutliers.classify_users_by_activity data
  = IndividualOutliers.mk_classification ["idle"] ["ana"] ["cy"] ["ben"]
  /\ Permutation (["idle"] ++ ["ana"] ++ ["cy"] ++ ["ben"]) (keys data).
Proof.
  intros data. split; [reflexivity|].
  assert (Hu : NoDup (keys data))
    by (repeat constructor; simpl; intuition discriminate).
  exact (proj1 (classification_partition data Hu)).
Defined.

(** ** User-week outliers ([main/5_user_week.py]) *)

Section UserWeekFacts.
Import UserWeek.

Definition cells_nonneg (user_week_data : dict (dict Z)) : Prop :=
  Forall (fun row => Forall (fun v => 0 <= v) (values (snd row))) user_week_data.

Lemma get_In {V : Type} (k : string) (v : V) (d : dict V) :
  get k d = Some v -> In (k, v) d.
Proof.
  induction d as [|[k' v'] d IH]; simpl; [discriminate|].
  destruct (String.eqb k k') eqn:E; intros H.
  - apply String.eqb_eq in E. injection H as ->. subst. now left.
  - right. now apply IH.
Qed.

Lemma cell_nonneg (user_week_data : dict (dict Z)) (user week : string) :
  cells_nonneg user_week_data -> 0 <= cell user_week_data user week.
Proof.
  intros H. unfold cell, get_default.
  match goal with
  | |- context [@get ?V user user_week_data] =>
      destruct (@get V user user_week_data) as [row|] eqn:Er; simpl; [|lia]
  end.
  destruct (get week row) as [v|] eqn:Ev; [|lia].
  apply get_In in Er. unfold cells_nonneg in H. rewrite Forall_forall in H.
  specialize (H _ Er). simpl in H. rewrite Forall_forall in H.
  apply H. unfold values. change v with (snd (week, v)).
  apply in_map. now apply get_In.
Qed.

Lemma cell_cell_set (data : dict (dict Z)) (u w u' w' : string) (v : Z) :
  cell (cell_set u w v data) u' w'
  = if String.eqb u u' && String.eqb w w' then v else cell data u' w'.
Proof.
  unfold cell, cell_set. rewrite get_default_set.
  destruct (String.eqb u u') eqn:Eu; simpl; [|reflexivity].
  apply String.eqb_eq in Eu. subst u'. now rewrite get_default_set.
Qed.

(** A cleaned cell is either untouched (0) or the original cell. *)
Definition cleaned_inv (user_week_data cleaned : dict (dict Z)) : Prop :=
  forall u w, cell cleaned u w = 0 \/ cell cleaned u w = cell user_week_data u w.

Lemma outlier_user_inv (uwd : dict (dict Z)) (week : string) (avg thr : Q)
  (acc : dict (dict Z) * list removed_outlier) (user : string) :
  cleaned_inv uwd (fst acc) ->
  cleaned_inv uwd (fst (outlier_user uwd week avg thr acc user)).
Proof.
  destruct acc as [cleaned removed]. unfold outlier_user. simpl.
  intros H. destruct (Qle_bool _ thr); simpl; [|exact H].
  intros u w. rewrite cell_cell_set.
  destruct (String.eqb user u && String.eqb week w) eqn:E; [|apply H].
  apply andb_prop in E. destruct E as [E1 E2].
  apply String.eqb_eq in E1, E2. subst. now right.
Qed.

Lemma outlier_week_inv (uwd : dict (dict Z)) (p : Q)
  (acc : dict (dict Z) * list removed_outlier) (week : string) :
  cleaned_inv uwd (fst acc) ->
  cleaned_inv uwd (fst (outlier_week uwd p acc week)).
Proof.
  unfold outlier_week.
  generalize (average_of (week_column uwd uwd week) (List.length uwd)) as avg.
  intros avg. generalize (avg * (1 + p / 100))%Q as thr. intros thr.
  generalize (keys uwd) as users. intros users. revert acc.
  induction users as [|u users IH]; intros acc H; simpl; [exact H|].
  apply IH. now apply outlier_user_inv.
Qed.

Lemma first_pass_inv (uwd : dict (dict Z)) (p : Q) (weeks : list string) :
  forall acc,
    cleaned_inv uwd (fst acc) ->
    cleaned_inv uwd (fst (fold_left (outlier_week uwd p) weeks acc)).
Proof.
  induction weeks as [|w weeks IH]; intros acc H; simpl; [exact H|].
  apply IH. now apply outlier_week_inv.
Qed.

Lemma get_fold_set (f : string -> Q) (weeks : list string) (week : string) :
  forall acc,
    get week (fold_left (fun averages w => set w (f w) averages) weeks acc)
    = if mem week weeks then Some (f week) else get week acc.
Proof.
  induction weeks as [|w weeks IH]; intros acc; simpl; [reflexivity|].
  rewrite IH. destruct (mem week weeks) eqn:E.
  - now rewrite orb_true_r.
  - rewrite orb_false_r. destruct (String.eqb week w) eqn:Ew.
    + apply String.eqb_eq in Ew. subst. now rewrite get_set_same.
    + apply String.eqb_neq in Ew. rewrite get_set_other; auto.
Qed.

Lemma sum_map_le {A : Type} (f g : A -> Z) (l : list A) :
  (forall x, f x <= g x) -> sum (map f l) <= sum (map g l).
Proof.
  intros H. induction l as [|x l IH]; simpl; [lia|].
  specialize (H x). lia.
Qed.

Lemma average_of_le (l1 l2 : list Z) (n : nat) :
  sum l1 <= sum l2 -> (average_of l1 n <= average_of l2 n)%Q.
Proof.
  intros H. unfold average_of. destruct (0 <? n)%nat eqn:E; [|apply Qle_refl].
  apply Nat.ltb_lt in E. unfold Qdiv. apply Qmult_le_compat_r.
  - now rewrite <- Zle_Qle.
  - apply Qlt_le_weak, Qinv_lt_0_compat.
    change 0%Q with (inject_Z 0). rewrite <- Zlt_Qlt. lia.
Qed.

End UserWeekFacts.

(** C10. Outlier removal never raises a weekly average.  For a user-week
    matrix with at least one user and no negative cell, and any threshold
    percentage, every week of [sorted_weeks] has a cleaned average from
    [remove_user_week_outliers] and an original average from
    [calculate_weekly_averages], and the cleaned one is not larger. *)
Theorem cleaned_average_le_original
  (user_week_data : dict (dict Z)) (sorted_weeks : list string)
  (threshold_percentage : Q) (week : string)
  (Hcells : cells_nonneg user_week_data)
  (Husers : user_week_data <> [])
  (Hweek : In week sorted_weeks) :
  exists cleaned original,
    get week (fst (UserWeek.remove_user_week_outliers
                     user_week_data sorted_weeks threshold_percentage))
    = Some cleaned
    /\ get week (UserWeek.calculate_weekly_averages user_week_data sorted_weeks)
       = Some original
    /\ (cleaned <= original)%Q.
Proof.
  unfold UserWeek.remove_user_week_outliers, UserWeek.calculate_weekly_averages.
  destruct user_week_data as [|row rows] eqn:Euwd; [congruence|].
  destruct sorted_weeks as [|w0 ws] eqn:Ews; [contradiction|].
  rewrite <- Euwd, <- Ews in *. clear Ews.
  replace (is_empty user_week_data || is_empty sorted_weeks) with false
    by (subst; destruct sorted_weeks; [contradiction | reflexivity]).
  pose proof (first_pass_inv user_week_data threshold_percentage sorted_weeks
                ([], [])) as Hinv.
  destruct (fold_left (UserWeek.outlier_week user_week_data threshold_percentage)
                      sorted_weeks ([], [])) as [cleaned_data removed] eqn:Ef.
  simpl in Hinv. simpl fst.
  apply mem_In in Hweek.
  rewrite (get_fold_set
             (fun w => UserWeek.average_of
                         (UserWeek.week_column cleaned_data user_week_data w)
                         (List.length user_week_data))).
  rewrite (get_fold_set
             (fun w => UserWeek.average_of
                         (UserWeek.week_column user_week_data user_week_data w)
                         (List.length user_week_data))).
  rewrite Hweek. do 2 eexists. split; [reflexivity|]. split; [reflexivity|].
  apply average_of_le. unfold UserWeek.week_column. apply sum_map_le.
  intros user. pose proof (cell_nonneg user_week_data user week Hcells).
  destruct (Hinv (fun u w => or_introl eq_refl) user week) as [E|E]; rewrite E; lia.
Qed.

Lemma cleaned_average_le_original_witness :
  let data := [("ana", [("2024-07-17", 1); ("2024-07-24", 2)]);
               ("ben", [("2024-07-17", 1)]);
               ("cy", [("2024-07-17", 10); ("2024-07-24", 1)])] in
  let weeks := ["2024-07-17"; "2024-07-24"] in
  exists cleaned original,
    get "2024-07-17" (fst (UserWeek.remove_user_week_outliers data weeks 50))
    = Some cleaned
    /\ get "2024-07-17" (UserWeek.calculate_weekly_averages data weeks)
       = Some original
    /\ (cleaned <= original)%Q.
Proof.
  intros data weeks.
  apply (cleaned_average_le_original data weeks 50 "2024-07-17").
  - repeat constructor; simpl; lia.
  - discriminate.
  - simpl. auto.
Defined.

Example cleaned_average_scenario :
  let data := [("ana", [("2024-07-17", 1); ("2024-07-24", 2)]);
               ("ben", [("2024-07-17", 1)]);
               ("cy", [("2024-07-17", 10); ("2024-07-24", 1)])] in
  let weeks := ["2024-07-17"; "2024-07-24"] in
  map (fun item => (fst item, Qred (snd item)))
      (UserWeek.calculate_weekly_averages data weeks)
  = [("2024-07-17", 4%Q); ("2024-07-24", 1%Q)]
  /\ map (fun item => (fst item, Qred (snd item)))
         (fst (UserWeek.remove_user_week_outliers data weeks 50))
     = [("2024-07-17", (2 # 3)%Q); ("2024-07-24", (1 # 3)%Q)].
Proof. split; reflexivity. Qed.

(** ** The consistency score ([main/3_individual_outliers.py]) *)

Section ConsistencyFacts.
Import IndividualOutliers.
Local Open Scope R_scope.

(** All the counts of a list are one and the same number. *)
Definition constant (l : list Z) : Prop :=
  exists c, Forall (fun x => x = c) l.

Lemma sum_sq_dev_nonneg (m : R) (l : list Z) : 0 <= sum_sq_dev m l.
Proof.
  induction l as [|x l IH]; simpl; [lra|].
  pose proof (Rle_0_sqr (IZR x - m)) as H. unfold Rsqr in H. lra.
Qed.

Lemma sum_sq_dev_zero (m : R) (l : list Z) :
  sum_sq_dev m l = 0 <-> Forall (fun x => IZR x = m) l.
Proof.
  induction l as [|x l IH]; simpl.
  - split; [constructor | reflexivity].
  - pose proof (sum_sq_dev_nonneg m l). split.
    + intros H0.
      pose proof (Rle_0_sqr (IZR x - m)) as Hsq. unfold Rsqr in Hsq.
      assert (E : sum_sq_dev m l = 0) by lra.
      constructor; [|now apply IH].
      assert (Ex : (IZR x - m) * (IZR x - m) = 0) by lra.
      apply Rmult_integral in Ex. lra.
    + intros Hall. apply Forall_cons_iff in Hall. destruct Hall as [Hx Hl].
      apply IH in Hl. rewrite Hl, Hx. lra.
Qed.

Lemma sum_positive (l : list Z) :
  Forall (fun x => (0 < x)%Z) l -> l <> [] -> (0 < sum l)%Z.
Proof.
  intros H Hne. destruct H as [|x l Hx Hl]; [congruence|].
  simpl. assert (0 <= sum l)%Z; [|lia].
  clear Hne Hx. induction Hl; simpl; lia.
Qed.

Lemma INR_length_pos {A : Type} (l : list A) : l <> [] -> 0 < INR (List.length l).
Proof.
  intros H. destruct l; [congruence|]. apply lt_0_INR. simpl. lia.
Qed.

Lemma np_mean_pos (l : list Z) :
  Forall (fun x => (0 < x)%Z) l -> l <> [] -> 0 < np_mean l.
Proof.
  intros H Hne. unfold np_mean. apply Rdiv_lt_0_compat.
  - apply IZR_lt. now apply sum_positive.
  - now apply INR_length_pos.
Qed.

Lemma sum_constant (c : Z) (l : list Z) :
  Forall (fun x => x = c) l -> sum l = (Z.of_nat (List.length l) * c)%Z.
Proof.
  induction 1 as [|x l Hx Hl IH]; [reflexivity|].
  cbn [sum List.length]. rewrite IH, Hx. lia.
Qed.

Lemma np_mean_constant (c : Z) (l : list Z) :
  Forall (fun x => x = c) l -> l <> [] -> np_mean l = IZR c.
Proof.
  intros H Hne. unfold np_mean. rewrite (sum_constant c l H).
  rewrite mult_IZR, <- INR_IZR_INZ. field.
  apply Rgt_not_eq. now apply INR_length_pos.
Qed.

Lemma np_std_zero_constant (l : list Z) :
  l <> [] -> (np_std l = 0 <-> constant l).
Proof.
  intros Hne. pose proof (INR_length_pos l Hne) as Hn.
  pose proof (sum_sq_dev_nonneg (np_mean l) l) as Hs.
  unfold np_std. split.
  - intros H. apply sqrt_eq_0 in H.
    + assert (E : sum_sq_dev (np_mean l) l = 0).
      { apply Rmult_eq_reg_r with (r := / INR (List.length l)).
        - rewrite Rmult_0_l. exact H.
        - apply Rinv_neq_0_compat. lra. }
      apply sum_sq_dev_zero in E.
      destruct l as [|x l]; [congruence|]. exists x.
      pose proof (Forall_inv E) as Hx. simpl in Hx.
      rewrite Forall_forall in *. intros y Hy.
      apply eq_IZR. rewrite Hx, (E y Hy). reflexivity.
    + apply Rmult_le_pos; [exact Hs|]. left. now apply Rinv_0_lt_compat.
  - intros [c Hc].
    assert (E : sum_sq_dev (np_mean l) l = 0).
    { apply sum_sq_dev_zero. rewrite (np_mean_constant c l Hc Hne).
      eapply Forall_impl; [|exact Hc]. intros x ->. reflexivity. }
    rewrite E. unfold Rdiv. rewrite Rmult_0_l. apply sqrt_0.
Qed.

Lemma score_bounds (std_commits mean_commits : R) :
  0 <= std_commits -> 0 < mean_commits ->
  0 < 1 / (1 + std_commits / mean_commits) <= 1
  /\ (1 / (1 + std_commits / mean_commits) = 1 <-> std_commits = 0).
Proof.
  intros Hs Hm.
  assert (Hcv : 0 <= std_commits / mean_commits).
  { apply Rmult_le_pos; [assumption|]. left. now apply Rinv_0_lt_compat. }
  set (cv := std_commits / mean_commits) in *.
  assert (Hinv : (1 / (1 + cv)) * (1 + cv) = 1) by (field; lra).
  assert (Hpos : 0 < 1 / (1 + cv)).
  { apply Rdiv_lt_0_compat; lra. }
  split; [split; [exact Hpos | nra]|].
  split.
  - intros H. rewrite H in Hinv. assert (Ecv : cv = 0) by lra.
    unfold cv in Ecv.
    assert (E : std_commits = std_commits / mean_commits * mean_commits)
      by (field; lra).
    rewrite E, Ecv. lra.
  - intros H. unfold cv. rewrite H. field. lra.
Qed.

End ConsistencyFacts.

Lemma filter_may_august_commits_values (P : Z -> Prop) (daily_commits : dict Z) :
  Forall P (values daily_commits) ->
  Forall P (values (IndividualOutliers.filter_may_august_commits daily_commits)).
Proof.
  unfold IndividualOutliers.filter_may_august_commits.
  assert (H : forall acc, Forall P (values acc) ->
                Forall P (values daily_commits) ->
                Forall P (values (fold_left IndividualOutliers.filter_step
                                            daily_commits acc))).
  { induction daily_commits as [|[s c] l IH]; intros acc Hacc Hl; simpl; [exact Hacc|].
    simpl in Hl. apply Forall_cons_iff in Hl. destruct Hl as [Hc Hl].
    apply IH; [|exact Hl].
    destruct (strptime s) as [date|]; [|exact Hacc].
    destruct ((IndividualOutliers.may_start <=? date)
              && (date <=? IndividualOutliers.aug_end)); [|exact Hacc].
    now apply Forall_values_set. }
  apply H. constructor.
Qed.

Lemma no_active_when_sum_zero (l : list Z) :
  Forall (fun v => 0 <= v) l -> sum l = 0 -> filter (fun c => 0 <? c) l = [].
Proof.
  induction 1 as [|x l Hx Hl IH]; simpl; [reflexivity|].
  intros Hs. pose proof (sum_nonneg l Hl).
  destruct (0 <? x) eqn:E; [apply Z.ltb_lt in E; lia|].
  apply IH. lia.
Qed.

Lemma active_positive (l : list Z) :
  Forall (fun x => 0 < x) (filter (fun c => 0 <? c) l).
Proof.
  apply Forall_forall. intros x Hx. apply filter_In in Hx.
  now apply Z.ltb_lt.
Qed.

(** C8. Consistency score.  For daily counts that are not negative: when
    the May-August window holds at least two active days (count > 0),
    [calculate_consistency_score] returns [1 / (1 + cv)] with [cv] the
    population standard deviation of the active-day counts divided by their
    mean, the score lies in (0, 1], and it is 1 exactly when the active-day
    counts are all equal; with fewer than two active days it returns 0. *)
Theorem consistency_score_bounds
  (daily_commits : dict Z)
  (Hcounts : Forall (fun v => 0 <= v) (values daily_commits)) :
  let active := IndividualOutliers.active_days daily_commits in
  let score := IndividualOutliers.calculate_consistency_score daily_commits in
  ((2 <= List.length active)%nat ->
   score = (1 / (1 + IndividualOutliers.np_std active
                      / IndividualOutliers.np_mean active))%R
   /\ (0 < score <= 1)%R
   /\ (score = 1%R <-> constant active))
  /\ ((List.length active < 2)%nat -> score = 0%R).
Proof.
  intros active score. subst active score.
  unfold IndividualOutliers.calculate_consistency_score,
    IndividualOutliers.active_days.
  pose proof (filter_may_august_commits_values _ _ Hcounts) as Hpos.
  set (filtered := IndividualOutliers.filter_may_august_commits daily_commits) in *.
  set (active := filter (fun c => 0 <? c) (values filtered)).
  destruct (is_empty filtered) eqn:Ee.
  { assert (Ea : active = [])
      by (subst active; destruct filtered; [reflexivity | discriminate]).
    rewrite Ea. simpl. split; [lia | reflexivity]. }
  destruct (is_empty (values filtered) || (sum (values filtered) =? 0)) eqn:Ez.
  { assert (Ea : active = []).
    { apply no_active_when_sum_zero; [exact Hpos|].
      apply orb_prop in Ez. destruct Ez as [Ez|Ez].
      - destruct filtered; [reflexivity | discriminate].
      - now apply Z.eqb_eq. }
    rewrite Ea. simpl. split; [lia | reflexivity]. }
  destruct (List.length active <? 2)%nat eqn:El.
  { apply Nat.ltb_lt in El. split; [lia | reflexivity]. }
  apply Nat.ltb_ge in El. split; [|lia]. intros _.
  assert (Hne : active <> []) by (intros E; rewrite E in El; simpl in El; lia).
  pose proof (np_mean_pos active (active_positive _) Hne) as Hmean.
  destruct (Req_dec_T (IndividualOutliers.np_mean active) 0) as [E0|_]; [lra|].
  assert (Hstd : (0 <= IndividualOutliers.np_std active)%R)
    by apply sqrt_pos.
  destruct (score_bounds _ _ Hstd Hmean) as [Hb Hone].
  split; [reflexivity|]. split; [exact Hb|].
  rewrite Hone. now apply np_std_zero_constant.
Qed.

Lemma consistency_score_bounds_witness :
  IndividualOutliers.calculate_consistency_score
    [("2024-05-01", 5); ("2024-05-02", 5); ("2024-05-08", 5); ("2024-05-09", 0)]
  = 1%R
  /\ IndividualOutliers.calculate_consistency_score
       [("2024-05-01", 5); ("2024-04-30", 7)] = 0%R.
Proof.
  split.
  - destruct (consistency_score_bounds
                [("2024-05-01", 5); ("2024-05-02", 5); ("2024-05-08", 5);
                 ("2024-05-09", 0)]) as [H _].
    + repeat constructor; simpl; lia.
    + destruct H as [_ [_ H]]; [vm_compute; lia|].
      apply H. exists 5. vm_compute. repeat constructor.
  - destruct (consistency_score_bounds [("2024-05-01", 5); ("2024-04-30", 7)])
      as [_ H].
    + repeat constructor; simpl; lia.
    + apply H. vm_compute. lia.
Defined.
